(** * Verification of the change-email OTP plugin (src/src/index.ts)

    Shallow embedding of the two endpoint handlers [sendChangeEmailOTP]
    and [verifyChangeEmailOTP], their helpers [generateOtp],
    [getExpirationDate] and [createOtp], and the plugin's [rateLimit]
    table.  Strings are Stdlib [string]s; JavaScript numbers used as
    attempt counters are modelled by [JsNum] (an integer or [NaN]);
    instants are milliseconds since the epoch, as [Z]. *)

From Stdlib Require Import String Ascii List ZArith Arith Lia Bool.
Import ListNotations.

Local Open Scope bool_scope.

(** ** JavaScript string and number primitives *)

Module Js.

(** Character classes. *)
Definition is_digit (c : ascii) : bool :=
  (48 <=? nat_of_ascii c)%nat && (nat_of_ascii c <=? 57)%nat.

Definition is_space (c : ascii) : bool :=
  let n := nat_of_ascii c in
  (n =? 32)%nat || ((9 <=? n)%nat && (n <=? 13)%nat).

Definition colon : ascii := ":"%char.

(** [s.split(":")]: all the pieces between colons, at least one. *)
Fixpoint split_colon (s : string) : list string :=
  match s with
  | EmptyString => [EmptyString]
  | String c rest =>
      let pieces := split_colon rest in
      if Ascii.eqb c colon then EmptyString :: pieces
      else match pieces with
           | p :: ps => String c p :: ps
           | [] => [String c EmptyString]
           end
  end.

(** A JavaScript number, restricted to the values the attempt counter
    takes: an integer (exact below 2^53, which bounds every counter
    reached in practice) or [NaN]. *)
Inductive JsNum := Num (z : Z) | NaN.

Definition add (a b : JsNum) : JsNum :=
  match a, b with
  | Num x, Num y => Num (x + y)
  | _, _ => NaN
  end.

(** [a >= b]; any comparison with [NaN] is false. *)
Definition ge (a b : JsNum) : bool :=
  match a, b with
  | Num x, Num y => (y <=? x)%Z
  | _, _ => false
  end.

(** Digits of a string prefix, most significant first. *)
Fixpoint take_digits (s : string) : list nat :=
  match s with
  | String c rest =>
      if is_digit c then (nat_of_ascii c - 48)%nat :: take_digits rest else []
  | EmptyString => []
  end.

Definition digits_value (ds : list nat) : nat :=
  fold_left (fun acc d => acc * 10 + d)%nat ds 0%nat.

Fixpoint skip_spaces (s : string) : string :=
  match s with
  | String c rest => if is_space c then skip_spaces rest else s
  | EmptyString => EmptyString
  end.

(** [Number.parseInt(s, 10)]: leading white space, an optional sign, then
    the longest run of decimal digits; [NaN] when there is no digit. *)
Definition parseInt10 (s : string) : JsNum :=
  let s := skip_spaces s in
  let '(sign, body) :=
    match s with
    | String c rest =>
        if Ascii.eqb c "-"%char then ((-1)%Z, rest)
        else if Ascii.eqb c "+"%char then (1%Z, rest)
        else (1%Z, s)
    | EmptyString => (1%Z, s)
    end in
  match take_digits body with
  | [] => NaN
  | ds => Num (sign * Z.of_nat (digits_value ds))
  end.

(** [parseInt(undefined, 10)] converts its argument to ["undefined"]. *)
Definition parseInt10_opt (s : option string) : JsNum :=
  parseInt10 (match s with Some s => s | None => "undefined"%string end).

(** Decimal rendering of naturals, most significant digit first. *)
Fixpoint digits_aux (fuel n : nat) (acc : list nat) : list nat :=
  match fuel with
  | O => n :: acc
  | S f => if (n <? 10)%nat then n :: acc
           else digits_aux f (n / 10) (n mod 10 :: acc)
  end.

Definition digits_of (n : nat) : list nat := digits_aux n n [].

Definition digit_char (d : nat) : ascii := ascii_of_nat (48 + d).

Fixpoint string_of_digits (ds : list nat) : string :=
  match ds with
  | [] => EmptyString
  | d :: ds => String (digit_char d) (string_of_digits ds)
  end.

(** [String(x)] / template interpolation [`${x}`] of a number. *)
Definition to_string (x : JsNum) : string :=
  match x with
  | NaN => "NaN"
  | Num z =>
      if (z <? 0)%Z then String "-" (string_of_digits (digits_of (Z.to_nat (- z))))
      else string_of_digits (digits_of (Z.to_nat z))
  end.

(** [s.padStart(n, "0")]. *)
Definition padStart0 (s : string) (n : nat) : string :=
  if (n <=? String.length s)%nat then s
  else String.append (string_of_list_ascii (repeat "0"%char (n - String.length s))) s.

(** Truthiness of a possibly-[undefined] string. *)
Definition truthy (s : option string) : bool :=
  match s with
  | Some EmptyString | None => false
  | Some _ => true
  end.

End Js.

Import Js.

(** ** OTP helpers *)

(** [generateRandomString(length, "0-9")], better-auth's random string
    helper: it throws "Length must be a positive integer." for a length that
    is not positive ([None] stands for the throw); otherwise its result is
    the collaborator's random draw, passed in as [draw]. *)
Definition generateRandomString (length : nat) (draw : string) : option string :=
  if Nat.eqb length 0 then None else Some draw.

(** [generateOtp]: [String(otp).padStart(length, "0")] on the random
    string; the throw of [generateRandomString] propagates. *)
Definition generateOtp (length : nat) (draw : string) : option string :=
  match generateRandomString length draw with
  | None => None
  | Some otp => Some (padStart0 otp length)
  end.

(** The host's local time zone, as ECMAScript's [LocalTZA]: the offset
    (ms) of local time at a UTC instant, used by [LocalTime], and the offset
    used to read a local time back as UTC, used by [UTC].  Across a
    daylight-saving change the two differ. *)
Record TimeZone := { tza_of_utc : Z -> Z; tza_of_local : Z -> Z }.

Definition LocalTime (tz : TimeZone) (t : Z) : Z := (t + tza_of_utc tz t)%Z.
Definition UTC (tz : TimeZone) (t : Z) : Z := (t - tza_of_local tz t)%Z.

(** A zone without offset. *)
Definition utc_zone : TimeZone := {| tza_of_utc := fun _ => 0%Z; tza_of_local := fun _ => 0%Z |}.

(** [getExpirationDate]: [d = new Date()], then
    [d.setMinutes(d.getMinutes() + expirationMinutes)].  [setMinutes]
    rebuilds the date from the local-time fields of [d] with the minute field
    replaced: the local time moves by [expirationMinutes] minutes and is read
    back as UTC.  (Instants stay within the [Date] range, where [TimeClip]
    is the identity.) *)
Definition getExpirationDate (tz : TimeZone) (now : Z) (expirationMinutes : Z) : Z :=
  UTC tz (LocalTime tz now + expirationMinutes * 60000)%Z.

(** [OtpOptions]: every field optional. *)
Record OtpOptions := {
  opt_length : option nat;
  opt_expirationMinutes : option Z;
  opt_maxAttempts : option Z
}.

Definition noOptions : OtpOptions := {| opt_length := None; opt_expirationMinutes := None; opt_maxAttempts := None |}.

(** [defaultOptions]. *)
Definition default_length : nat := 6.
Definition default_expirationMinutes : Z := 5.
Definition default_maxAttempts : Z := 3.

Definition cfg_length (o : OtpOptions) : nat :=
  match opt_length o with Some n => n | None => default_length end.
Definition cfg_expirationMinutes (o : OtpOptions) : Z :=
  match opt_expirationMinutes o with Some n => n | None => default_expirationMinutes end.
Definition cfg_maxAttempts (o : OtpOptions) : Z :=
  match opt_maxAttempts o with Some n => n | None => default_maxAttempts end.

Record CreatedOtp := { c_otp : string; c_identifier : string; c_expiresAt : Z }.

(** [createOtp]: [{ ...defaultOptions, ...options }], then a code and an
    expiry instant; [None] when [generateOtp] throws. *)
Definition createOtp (identifier : string) (options : OtpOptions) (draw : string)
    (tz : TimeZone) (now : Z) : option CreatedOtp :=
  match generateOtp (cfg_length options) draw with
  | None => None
  | Some otp =>
      Some {| c_otp := otp;
              c_identifier := identifier;
              c_expiresAt := getExpirationDate tz now (cfg_expirationMinutes options) |}
  end.

(** ** Error codes and results *)

Inductive ErrorCode := OTP_EXPIRED | INVALID_OTP | TOO_MANY_ATTEMPTS | EMAIL_ALREADY_EXISTS.

(** What an endpoint throws: [ctx.error(...)], or a rejection raised by a
    collaborator (store, user directory, notifier) and propagated as is. *)
Inductive APIError :=
  | UNAUTHORIZED
  | BAD_REQUEST (message : ErrorCode)
  | Rejected (reason : string).

(** The error [generateRandomString] throws for a length that is not
    positive. *)
Definition generateRandomString_error : APIError :=
  Rejected "Length must be a positive integer.".

(** The outcome of an asynchronous step: side effects already performed
    stay in the state also when it throws. *)
Inductive Res (S A : Type) := Ok (a : A) (s : S) | Err (e : APIError) (s : S).
Arguments Ok {S A} a s.
Arguments Err {S A} e s.

Definition M (S A : Type) := S -> Res S A.

Definition ret {S A} (a : A) : M S A := fun s => Ok a s.
Definition throw {S A} (e : APIError) : M S A := fun s => Err e s.
Definition bind {S A B} (m : M S A) (k : A -> M S B) : M S B :=
  fun s => match m s with Ok a s' => k a s' | Err e s' => Err e s' end.
(** [promise.catch(handler)]. *)
Definition catch {S A} (m : M S A) (h : APIError -> M S A) : M S A :=
  fun s => match m s with Ok a s' => Ok a s' | Err e s' => h e s' end.

Notation "x <- m ;; k" := (bind m (fun x => k)) (at level 61, m at next level, right associativity).
Notation "m ;;; k" := (bind m (fun _ => k)) (at level 61, right associativity).

(** ** Collaborators *)

Record User := { user_id : string; user_email : string; user_emailVerified : bool }.

Record Verification := {
  v_id : nat;
  v_identifier : string;
  v_value : string;
  v_expiresAt : Z
}.

Record VerificationInput := {
  in_identifier : string;
  in_value : string;
  in_expiresAt : Z
}.

Record Session := { session_user_id : string }.

(** [ctx.context.internalAdapter], as far as the plugin uses it. *)
Record InternalAdapter (S : Type) := {
  findUserByEmail : string -> M S (option User);
  createVerificationValue : VerificationInput -> M S unit;
  deleteVerificationByIdentifier : string -> M S unit;
  findVerificationValue : string -> M S (option Verification);
  updateVerificationValue : nat -> string -> M S unit;
  deleteVerificationValue : nat -> M S unit;
  updateUser : string -> string -> bool -> M S unit
}.
Arguments findUserByEmail {S}.
Arguments createVerificationValue {S}.
Arguments deleteVerificationByIdentifier {S}.
Arguments findVerificationValue {S}.
Arguments updateVerificationValue {S}.
Arguments deleteVerificationValue {S}.
Arguments updateUser {S}.

(** [Params]: the options and the caller-supplied notifier. *)
Record Params (S : Type) := {
  options : OtpOptions;
  p_sendChangeEmailOTP : string -> string -> M S unit
}.
Arguments options {S}.
Arguments p_sendChangeEmailOTP {S}.

(** ** The endpoint handlers

    Both handlers receive [ctx.body] after the zod schema: [email] is
    already trimmed and lower-cased. *)

Definition identifier_of (email : string) : string :=
  String.append "change-email-otp-" email.

Section Handlers.
Context {S : Type} (adapter : InternalAdapter S) (params : Params S).

(** Handler of [POST /change-email-otp/send]; [draw] is the random
    string drawn by [generateRandomString], [tz] the host's time zone and
    [now] the clock. *)
Definition sendChangeEmailOTP (session : option Session) (email : string)
    (draw : string) (tz : TimeZone) (now : Z) : M S bool :=
  match session with
  | None => throw UNAUTHORIZED
  | Some _ =>
      match createOtp (identifier_of email) (options params) draw tz now with
      | None => throw generateRandomString_error
      | Some c =>
          emailAlreadyExists <- findUserByEmail adapter email ;;
          match emailAlreadyExists with
          | Some _ => throw (BAD_REQUEST EMAIL_ALREADY_EXISTS)
          | None =>
              let input := {| in_identifier := c_identifier c;
                              in_value := String.append (c_otp c) ":0";
                              in_expiresAt := c_expiresAt c |} in
              catch (createVerificationValue adapter input)
                    (fun _ => deleteVerificationByIdentifier adapter (c_identifier c) ;;;
                              createVerificationValue adapter input) ;;;
              p_sendChangeEmailOTP params email (c_otp c) ;;;
              ret true
          end
      end
  end.

(** Handler of [POST /change-email-otp/verify]. *)
Definition verifyChangeEmailOTP (session : option Session) (email otp : string)
    (now : Z) : M S bool :=
  match session with
  | None => throw UNAUTHORIZED
  | Some sess =>
      let identifier := identifier_of email in
      verificationValue <- findVerificationValue adapter identifier ;;
      match verificationValue with
      | None => throw (BAD_REQUEST INVALID_OTP)
      | Some v =>
          if (v_expiresAt v <? now)%Z then throw (BAD_REQUEST OTP_EXPIRED) else
          (* [const [storedOtp, storedOtpAttempts] = value.split(":")];
             the split has at least one piece *)
          let parts := split_colon (v_value v) in
          let storedOtp := hd EmptyString parts in
          let storedOtpAttempts := nth_error parts 1 in
          let allowedAttempts := cfg_maxAttempts (options params) in
          if truthy storedOtpAttempts
             && ge (parseInt10_opt storedOtpAttempts) (Num allowedAttempts) then
            deleteVerificationValue adapter (v_id v) ;;;
            throw (BAD_REQUEST TOO_MANY_ATTEMPTS)
          else if negb (String.eqb storedOtp otp) then
            updateVerificationValue adapter (v_id v)
              (String.append storedOtp
                 (String ":" (to_string (add (parseInt10_opt storedOtpAttempts) (Num 1))))) ;;;
            throw (BAD_REQUEST INVALID_OTP)
          else
            deleteVerificationValue adapter (v_id v) ;;;
            updateUser adapter (session_user_id sess) email true ;;;
            ret true
      end
  end.

End Handlers.

(** ** An in-memory verification store and user directory

    The store follows the collaborator contract: creating a record whose
    identifier already has a record is refused with a conflict; records
    are found by identifier and updated or deleted by [id].  Every store
    call is logged. *)

Inductive StoreCall :=
  | CallCreate (identifier : string) (accepted : bool)
  | CallDeleteByIdentifier (identifier : string)
  | CallUpdate (id : nat)
  | CallDelete (id : nat).

Record World := {
  verifications : list Verification;
  users : list User;
  next_id : nat;
  outbox : list (string * string);
  calls : list StoreCall
}.

Definition set_verifications (w : World) (vs : list Verification) (c : StoreCall) : World :=
  {| verifications := vs; users := users w; next_id := next_id w;
     outbox := outbox w; calls := calls w ++ [c] |}.

Definition find_ident (i : string) (vs : list Verification) : option Verification :=
  find (fun v => String.eqb (v_identifier v) i) vs.

Definition mem_findUserByEmail (e : string) : M World (option User) :=
  fun w => Ok (find (fun u => String.eqb (user_email u) e) (users w)) w.

Definition conflict : APIError := Rejected "conflict".

Definition mem_createVerificationValue (inp : VerificationInput) : M World unit :=
  fun w =>
    match find_ident (in_identifier inp) (verifications w) with
    | Some _ => Err conflict
                  {| verifications := verifications w; users := users w; next_id := next_id w;
                     outbox := outbox w; calls := calls w ++ [CallCreate (in_identifier inp) false] |}
    | None =>
        Ok tt {| verifications := verifications w ++
                   [{| v_id := next_id w; v_identifier := in_identifier inp;
                       v_value := in_value inp; v_expiresAt := in_expiresAt inp |}];
                 users := users w; next_id := S (next_id w);
                 outbox := outbox w; calls := calls w ++ [CallCreate (in_identifier inp) true] |}
    end.

Definition mem_deleteVerificationByIdentifier (i : string) : M World unit :=
  fun w => Ok tt (set_verifications w
                    (filter (fun v => negb (String.eqb (v_identifier v) i)) (verifications w))
                    (CallDeleteByIdentifier i)).

Definition mem_findVerificationValue (i : string) : M World (option Verification) :=
  fun w => Ok (find_ident i (verifications w)) w.

Definition with_value (v : Verification) (value : string) : Verification :=
  {| v_id := v_id v; v_identifier := v_identifier v; v_value := value; v_expiresAt := v_expiresAt v |}.

Definition replace_value (id : nat) (value : string) (v : Verification) : Verification :=
  if Nat.eqb (v_id v) id then with_value v value else v.

Definition mem_updateVerificationValue (id : nat) (value : string) : M World unit :=
  fun w => Ok tt (set_verifications w (map (replace_value id value) (verifications w))
                    (CallUpdate id)).

Definition other_id (id : nat) (v : Verification) : bool := negb (Nat.eqb (v_id v) id).

Definition mem_deleteVerificationValue (id : nat) : M World unit :=
  fun w => Ok tt (set_verifications w (filter (other_id id) (verifications w))
                    (CallDelete id)).

Definition set_user (uid email : string) (verified : bool) (u : User) : User :=
  if String.eqb (user_id u) uid
  then {| user_id := user_id u; user_email := email; user_emailVerified := verified |}
  else u.

Definition mem_updateUser (uid email : string) (verified : bool) : M World unit :=
  fun w => Ok tt {| verifications := verifications w;
                    users := map (set_user uid email verified) (users w);
                    next_id := next_id w; outbox := outbox w; calls := calls w |}.

Definition memAdapter : InternalAdapter World := {|
  findUserByEmail := mem_findUserByEmail;
  createVerificationValue := mem_createVerificationValue;
  deleteVerificationByIdentifier := mem_deleteVerificationByIdentifier;
  findVerificationValue := mem_findVerificationValue;
  updateVerificationValue := mem_updateVerificationValue;
  deleteVerificationValue := mem_deleteVerificationValue;
  updateUser := mem_updateUser
|}.

(** A notifier that records the message it delivers. *)
Definition mem_notify (email otp : string) : M World unit :=
  fun w => Ok tt {| verifications := verifications w; users := users w; next_id := next_id w;
                    outbox := outbox w ++ [(email, otp)]; calls := calls w |}.

Definition memParams (o : OtpOptions) : Params World :=
  {| options := o; p_sendChangeEmailOTP := mem_notify |}.

(** The number of records stored under an identifier. *)
Definition count_ident (i : string) (vs : list Verification) : nat :=
  length (filter (fun v => String.eqb (v_identifier v) i) vs).

(** At most one record per identifier. *)
Definition unique_identifiers (w : World) : Prop :=
  NoDup (map v_identifier (verifications w)).

(** ** The plugin's [rateLimit] table and endpoint paths *)

Record RateLimitRule := {
  pathMatcher : string -> bool;
  window : Z;
  max : Z
}.

Definition rateLimit : list RateLimitRule := [
  {| pathMatcher := fun path => String.eqb path "/send-change-email-otp"; window := 60; max := 3 |};
  {| pathMatcher := fun path => String.eqb path "/verify-change-email-otp"; window := 60; max := 3 |}
].

Definition sendChangeEmailOTP_path : string := "/change-email-otp/send".
Definition verifyChangeEmailOTP_path : string := "/change-email-otp/verify".
Definition endpoint_paths : list string := [sendChangeEmailOTP_path; verifyChangeEmailOTP_path].

(** ** Observing runs *)

Definition state_of {S A} (r : Res S A) : S := match r with Ok _ s | Err _ s => s end.

(** [None] for a success, the thrown error otherwise. *)
Definition outcome {S A} (r : Res S A) : option APIError :=
  match r with Ok _ _ => None | Err e _ => Some e end.

(** Successive verification requests against the in-memory store. *)
Fixpoint verify_seq (o : OtpOptions) (sess : option Session) (email : string) (now : Z)
    (otps : list string) (w : World) : list (option APIError) * World :=
  match otps with
  | [] => ([], w)
  | otp :: rest =>
      let r := verifyChangeEmailOTP memAdapter (memParams o) sess email otp now w in
      let '(outs, w') := verify_seq o sess email now rest (state_of r) in
      (outcome r :: outs, w')
  end.

(** The packed value [`${code}:${attempts}`] written by the handlers. *)
Definition encodeValue (code : string) (attempts : Z) : string :=
  String.append code (String ":" (to_string (Num attempts))).

Fixpoint no_colon (s : string) : bool :=
  match s with
  | EmptyString => true
  | String c r => negb (Ascii.eqb c colon) && no_colon r
  end.

Fixpoint all_digits (s : string) : bool :=
  match s with
  | EmptyString => true
  | String c r => is_digit c && all_digits r
  end.

(** ** Concrete requests used as test inputs *)

Definition demo_user : User :=
  {| user_id := "u1"; user_email := "old@example.com"; user_emailVerified := true |}.
Definition other_user : User :=
  {| user_id := "u2"; user_email := "taken@example.com"; user_emailVerified := true |}.
Definition demo_session : Session := {| session_user_id := "u1" |}.
Definition demo_email : string := "new@example.com".

(** A directory with two users and an empty store. *)
Definition demo_world : World :=
  {| verifications := []; users := [demo_user; other_user]; next_id := 0;
     outbox := []; calls := [] |}.

(** After [POST /change-email-otp/send] for [demo_email] at instant 0 with
    the draw ["042613"] and the default options. *)
Definition demo_pending : World :=
  state_of (sendChangeEmailOTP memAdapter (memParams noOptions) (Some demo_session)
              demo_email "042613" utc_zone 0 demo_world).

(** Then a second pending request, for [second_email], drawn "555555". *)
Definition second_email : string := "second@example.com".

Definition two_pending : World :=
  state_of (sendChangeEmailOTP memAdapter (memParams noOptions) (Some demo_session)
              second_email "555555" utc_zone 0 demo_pending).

(** A zone one hour ahead of UTC until the instant 60000, then at UTC: a
    daylight-saving fall-back.  A local time the change makes ambiguous is
    read with the offset before the transition. *)
Definition fallback_zone : TimeZone :=
  {| tza_of_utc := fun t => if (t <? 60000)%Z then 3600000%Z else 0%Z;
     tza_of_local := fun l => if (l <? 3660000)%Z then 3600000%Z else 0%Z |}.

(** Options with [length: 0], and options with [maxAttempts: 0]. *)
Definition zero_length_options : OtpOptions :=
  {| opt_length := Some 0%nat; opt_expirationMinutes := None; opt_maxAttempts := None |}.

Definition no_attempt_options : OtpOptions :=
  {| opt_length := None; opt_expirationMinutes := None; opt_maxAttempts := Some 0%Z |}.

(** A store holding a record [value] for [demo_email], live until 300000. *)
Definition world_with_value (value : string) : World :=
  {| verifications := [{| v_id := 7; v_identifier := identifier_of demo_email;
                           v_value := value; v_expiresAt := 300000 |}];
     users := [demo_user; other_user]; next_id := 8; outbox := []; calls := [] |}.

(** A notifier that always rejects. *)
Definition failing_notify (email otp : string) : M World unit :=
  fun w => Err (Rejected "smtp unavailable") w.

(** * Lemmas on the string and number primitives *)

Section JsLemmas.

Lemma split_colon_no_colon s : no_colon s = true -> split_colon s = [s].
Proof.
  induction s as [|c s IH]; simpl; [reflexivity|].
  intros H. apply andb_prop in H as [Hc Hs].
  apply negb_true_iff in Hc. rewrite Hc, (IH Hs). reflexivity.
Qed.

Lemma split_colon_encode c t :
  no_colon c = true -> split_colon (String.append c (String ":" t)) = c :: split_colon t.
Proof.
  induction c as [|a c IH]; simpl; [reflexivity|].
  intros H. apply andb_prop in H as [Ha Hc].
  apply negb_true_iff in Ha. rewrite Ha, (IH Hc). reflexivity.
Qed.

Definition step (acc d : nat) : nat := (acc * 10 + d)%nat.

Lemma digits_aux_value fuel : forall n acc, (n <= fuel)%nat ->
  fold_left step (digits_aux fuel n acc) 0%nat = fold_left step acc n.
Proof.
  induction fuel as [|f IH]; intros n acc Hn; cbn [digits_aux].
  - assert (n = 0%nat) by lia. subst. reflexivity.
  - destruct (Nat.ltb_spec n 10).
    + reflexivity.
    + rewrite IH.
      * cbn [fold_left]. f_equal. unfold step.
        pose proof (Nat.div_mod_eq n 10). lia.
      * assert (n / 10 < n)%nat by (apply Nat.div_lt; lia). lia.
Qed.

Lemma digits_aux_small fuel : forall n acc, (n <= fuel)%nat ->
  Forall (fun d => d < 10)%nat acc -> Forall (fun d => d < 10)%nat (digits_aux fuel n acc).
Proof.
  induction fuel as [|f IH]; intros n acc Hn Hacc; cbn [digits_aux].
  - constructor; [lia | exact Hacc].
  - destruct (Nat.ltb_spec n 10).
    + constructor; assumption.
    + apply IH.
      * assert (n / 10 < n)%nat by (apply Nat.div_lt; lia). lia.
      * constructor; [apply Nat.mod_upper_bound; lia | exact Hacc].
Qed.

Lemma digits_aux_cons fuel : forall n acc, exists d ds, digits_aux fuel n acc = d :: ds.
Proof.
  induction fuel as [|f IH]; intros n acc; simpl; [eauto|].
  destruct (n <? 10)%nat; eauto.
Qed.

Lemma digits_of_value n : digits_value (digits_of n) = n.
Proof. unfold digits_value, digits_of. apply (digits_aux_value n n []). lia. Qed.

Lemma digits_of_small n : Forall (fun d => d < 10)%nat (digits_of n).
Proof. apply digits_aux_small; [lia | constructor]. Qed.

Lemma nat_of_digit_char d : (d < 10)%nat -> nat_of_ascii (digit_char d) = (48 + d)%nat.
Proof. intros H. unfold digit_char. apply nat_ascii_embedding. lia. Qed.

Lemma is_digit_digit_char d : (d < 10)%nat -> is_digit (digit_char d) = true.
Proof.
  intros H. unfold is_digit. rewrite nat_of_digit_char by exact H.
  apply andb_true_iff; split; apply Nat.leb_le; lia.
Qed.

Lemma take_digits_of ds : Forall (fun d => d < 10)%nat ds ->
  take_digits (string_of_digits ds) = ds.
Proof.
  induction 1 as [|d ds Hd Hds IH]; cbn [string_of_digits take_digits]; [reflexivity|].
  rewrite is_digit_digit_char by exact Hd. rewrite nat_of_digit_char by exact Hd.
  rewrite IH. f_equal. lia.
Qed.

Lemma digit_char_not_colon d : (d < 10)%nat -> Ascii.eqb (digit_char d) colon = false.
Proof.
  intros H. destruct (Ascii.eqb_spec (digit_char d) colon) as [E|E]; [|reflexivity].
  apply (f_equal nat_of_ascii) in E. rewrite nat_of_digit_char in E by exact H.
  change (nat_of_ascii colon) with 58%nat in E. lia.
Qed.

Lemma no_colon_digits ds : Forall (fun d => d < 10)%nat ds -> no_colon (string_of_digits ds) = true.
Proof.
  induction 1 as [|d ds Hd Hds IH]; cbn [string_of_digits no_colon]; [reflexivity|].
  rewrite digit_char_not_colon by exact Hd. exact IH.
Qed.

(** [parseInt] on a string that starts with a digit reads the digit run. *)
Lemma parseInt10_digit_start c r : is_digit c = true ->
  parseInt10 (String c r) =
  match take_digits (String c r) with
  | [] => NaN
  | ds => Num (1 * Z.of_nat (digits_value ds))
  end.
Proof.
  intros H. unfold is_digit in H. apply andb_prop in H as [H1 H2].
  apply Nat.leb_le in H1, H2.
  assert (Hsp : is_space c = false).
  { unfold is_space. apply orb_false_iff; split.
    - apply Nat.eqb_neq. lia.
    - apply andb_false_iff. right. apply Nat.leb_gt. lia. }
  assert (Hne : forall a, (nat_of_ascii a < 48)%nat -> Ascii.eqb c a = false).
  { intros a Ha. destruct (Ascii.eqb_spec c a); [subst; lia | reflexivity]. }
  unfold parseInt10. cbn [skip_spaces]. rewrite Hsp.
  rewrite (Hne "-"%char), (Hne "+"%char) by (cbv; lia). reflexivity.
Qed.

Lemma to_string_nonneg k : (0 <= k)%Z ->
  to_string (Num k) = string_of_digits (digits_of (Z.to_nat k)).
Proof.
  intros Hk. unfold to_string. destruct (Z.ltb_spec k 0); [lia | reflexivity].
Qed.

Lemma parseInt10_to_string k : (0 <= k)%Z -> parseInt10 (to_string (Num k)) = Num k.
Proof.
  intros Hk. rewrite to_string_nonneg by exact Hk.
  pose proof (digits_of_small (Z.to_nat k)) as Hs.
  pose proof (take_digits_of _ Hs) as Ht.
  pose proof (digits_of_value (Z.to_nat k)) as Hv.
  destruct (digits_aux_cons (Z.to_nat k) (Z.to_nat k) []) as (d & ds & E).
  unfold digits_of in *. rewrite E in *. cbn [string_of_digits] in *.
  inversion Hs as [|? ? Hd _]; subst.
  rewrite parseInt10_digit_start by (apply is_digit_digit_char; exact Hd).
  rewrite Ht, Hv. f_equal. lia.
Qed.

Lemma no_colon_to_string k : (0 <= k)%Z -> no_colon (to_string (Num k)) = true.
Proof.
  intros Hk. rewrite to_string_nonneg by exact Hk. apply no_colon_digits, digits_of_small.
Qed.

Lemma truthy_to_string k : (0 <= k)%Z -> truthy (Some (to_string (Num k))) = true.
Proof.
  intros Hk. rewrite to_string_nonneg by exact Hk.
  destruct (digits_aux_cons (Z.to_nat k) (Z.to_nat k) []) as (d & ds & E).
  unfold digits_of. rewrite E. reflexivity.
Qed.

(** Decoding a value written by [encodeValue]. *)
Lemma split_encodeValue c k : no_colon c = true -> (0 <= k)%Z ->
  split_colon (encodeValue c k) = [c; to_string (Num k)].
Proof.
  intros Hc Hk. unfold encodeValue. rewrite split_colon_encode by exact Hc.
  rewrite split_colon_no_colon by (apply no_colon_to_string; exact Hk). reflexivity.
Qed.

Lemma all_digits_no_colon s : all_digits s = true -> no_colon s = true.
Proof.
  induction s as [|c s IH]; simpl; [reflexivity|].
  intros H. apply andb_prop in H as [Hc Hs]. rewrite (IH Hs), andb_true_r.
  apply negb_true_iff. destruct (Ascii.eqb_spec c colon) as [E|E]; [|reflexivity].
  subst. discriminate Hc.
Qed.

End JsLemmas.

(** * Lemmas on the in-memory store *)

Section StoreLemmas.

Lemma find_ident_some i vs v :
  find_ident i vs = Some v -> v_identifier v = i /\ In v vs.
Proof.
  unfold find_ident. intros H. apply find_some in H as [Hin Heq].
  apply String.eqb_eq in Heq. auto.
Qed.

Lemma find_ident_replace i vs v value :
  find_ident i vs = Some v ->
  find_ident i (map (replace_value (v_id v) value) vs) = Some (with_value v value).
Proof.
  unfold find_ident. induction vs as [|x vs IH]; cbn [find map]; [discriminate|].
  assert (Hid : v_identifier (replace_value (v_id v) value x) = v_identifier x).
  { unfold replace_value. destruct (Nat.eqb (v_id x) (v_id v)); reflexivity. }
  rewrite Hid. destruct (String.eqb (v_identifier x) i).
  - intros H. injection H as <-. unfold replace_value. rewrite Nat.eqb_refl. reflexivity.
  - exact IH.
Qed.

Lemma find_ident_none_not_in i vs :
  find_ident i vs = None <-> ~ In i (map v_identifier vs).
Proof.
  unfold find_ident. induction vs as [|x vs IH]; cbn [find map In]; [tauto|].
  destruct (String.eqb_spec (v_identifier x) i) as [E|E].
  - split; [discriminate | intros H; exfalso; apply H; left; exact E].
  - rewrite IH. intuition.
Qed.

Lemma find_ident_delete i vs v :
  NoDup (map v_identifier vs) -> find_ident i vs = Some v ->
  find_ident i (filter (other_id (v_id v)) vs) = None.
Proof.
  intros Hnd Hf. apply find_ident_none_not_in. intros Hin.
  apply in_map_iff in Hin as (x & Hx & Hin). apply filter_In in Hin as [Hin Hother].
  destruct (find_ident_some _ _ _ Hf) as [Hv Hinv].
  assert (x = v).
  { clear Hf Hother. induction vs as [|y vs IH]; [destruct Hin|].
    cbn [map] in Hnd. apply NoDup_cons_iff in Hnd as [Hnotin Hnd'].
    destruct Hin as [Ey|Hin], Hinv as [Ey'|Hinv]; try congruence.
    - exfalso. apply Hnotin. rewrite Ey, Hx, <- Hv. apply in_map. exact Hinv.
    - exfalso. apply Hnotin. rewrite Ey', Hv, <- Hx. apply in_map. exact Hin.
    - apply IH; assumption. }
  subst x. unfold other_id in Hother. rewrite Nat.eqb_refl in Hother. discriminate.
Qed.

Lemma map_identifier_replace id value vs :
  map v_identifier (map (replace_value id value) vs) = map v_identifier vs.
Proof.
  induction vs as [|x vs IH]; cbn; [reflexivity|].
  unfold replace_value at 1. destruct (Nat.eqb (v_id x) id); cbn; rewrite IH; reflexivity.
Qed.

Lemma NoDup_map_filter {A B} (f : A -> B) (p : A -> bool) l :
  NoDup (map f l) -> NoDup (map f (filter p l)).
Proof.
  induction l as [|x l IH]; cbn; [auto|].
  intros Hnd. inversion Hnd as [|? ? Hn Hnd']; subst.
  destruct (p x); cbn; [constructor|]; auto.
  intros Hin. apply Hn. apply in_map_iff in Hin as (y & Hy & Hin).
  apply filter_In in Hin as [Hin _]. rewrite <- Hy. apply in_map. exact Hin.
Qed.

End StoreLemmas.

(** * The verify handler on the in-memory store, branch by branch *)

Section VerifyMem.
Variable p : Params World.

Lemma verify_no_record s e otp now w :
  find_ident (identifier_of e) (verifications w) = None ->
  verifyChangeEmailOTP memAdapter p (Some s) e otp now w = Err (BAD_REQUEST INVALID_OTP) w.
Proof.
  intros Hf. unfold verifyChangeEmailOTP, bind, throw. cbn [findVerificationValue memAdapter].
  unfold mem_findVerificationValue. rewrite Hf. reflexivity.
Qed.

Lemma verify_expired s e otp now w v :
  find_ident (identifier_of e) (verifications w) = Some v ->
  (v_expiresAt v < now)%Z ->
  verifyChangeEmailOTP memAdapter p (Some s) e otp now w = Err (BAD_REQUEST OTP_EXPIRED) w.
Proof.
  intros Hf Hexp. unfold verifyChangeEmailOTP, bind, throw. cbn [findVerificationValue memAdapter].
  unfold mem_findVerificationValue. rewrite Hf. apply Z.ltb_lt in Hexp. rewrite Hexp.
  reflexivity.
Qed.

Lemma verify_exhausted s e otp now w v :
  find_ident (identifier_of e) (verifications w) = Some v ->
  (now <= v_expiresAt v)%Z ->
  truthy (nth_error (split_colon (v_value v)) 1)
    && ge (parseInt10_opt (nth_error (split_colon (v_value v)) 1))
          (Num (cfg_maxAttempts (options p))) = true ->
  verifyChangeEmailOTP memAdapter p (Some s) e otp now w =
  Err (BAD_REQUEST TOO_MANY_ATTEMPTS)
      (set_verifications w (filter (other_id (v_id v)) (verifications w)) (CallDelete (v_id v))).
Proof.
  intros Hf Hexp Hex. unfold verifyChangeEmailOTP, bind, throw.
  cbn [findVerificationValue deleteVerificationValue memAdapter].
  unfold mem_findVerificationValue. rewrite Hf.
  assert (E : (v_expiresAt v <? now)%Z = false) by (apply Z.ltb_ge; exact Hexp).
  rewrite E. cbv zeta. rewrite Hex. reflexivity.
Qed.

Lemma verify_mismatch s e otp now w v :
  find_ident (identifier_of e) (verifications w) = Some v ->
  (now <= v_expiresAt v)%Z ->
  truthy (nth_error (split_colon (v_value v)) 1)
    && ge (parseInt10_opt (nth_error (split_colon (v_value v)) 1))
          (Num (cfg_maxAttempts (options p))) = false ->
  hd EmptyString (split_colon (v_value v)) <> otp ->
  verifyChangeEmailOTP memAdapter p (Some s) e otp now w =
  Err (BAD_REQUEST INVALID_OTP)
      (set_verifications w
         (map (replace_value (v_id v)
                 (String.append (hd EmptyString (split_colon (v_value v)))
                    (String ":" (to_string (add (parseInt10_opt (nth_error (split_colon (v_value v)) 1))
                                                (Num 1))))))
              (verifications w))
         (CallUpdate (v_id v))).
Proof.
  intros Hf Hexp Hex Hne. unfold verifyChangeEmailOTP, bind, throw.
  cbn [findVerificationValue updateVerificationValue memAdapter].
  unfold mem_findVerificationValue. rewrite Hf.
  assert (E : (v_expiresAt v <? now)%Z = false) by (apply Z.ltb_ge; exact Hexp).
  rewrite E. cbv zeta. rewrite Hex.
  apply String.eqb_neq in Hne. rewrite Hne. reflexivity.
Qed.

Lemma verify_match s e otp now w v :
  find_ident (identifier_of e) (verifications w) = Some v ->
  (now <= v_expiresAt v)%Z ->
  truthy (nth_error (split_colon (v_value v)) 1)
    && ge (parseInt10_opt (nth_error (split_colon (v_value v)) 1))
          (Num (cfg_maxAttempts (options p))) = false ->
  hd EmptyString (split_colon (v_value v)) = otp ->
  verifyChangeEmailOTP memAdapter p (Some s) e otp now w =
  Ok true {| verifications := filter (other_id (v_id v)) (verifications w);
             users := map (set_user (session_user_id s) e true) (users w);
             next_id := next_id w; outbox := outbox w;
             calls := calls w ++ [CallDelete (v_id v)] |}.
Proof.
  intros Hf Hexp Hex Heq. unfold verifyChangeEmailOTP, bind, throw, ret.
  cbn [findVerificationValue deleteVerificationValue updateUser memAdapter].
  unfold mem_findVerificationValue. rewrite Hf.
  assert (E : (v_expiresAt v <? now)%Z = false) by (apply Z.ltb_ge; exact Hexp).
  rewrite E. cbv zeta. rewrite Hex.
  rewrite Heq, String.eqb_refl. reflexivity.
Qed.

(** The same branches for a value [`${code}:${attempts}`] as the handlers
    write it. *)

Lemma exhausted_encoded c k :
  no_colon c = true -> (0 <= k)%Z ->
  truthy (nth_error (split_colon (encodeValue c k)) 1)
    && ge (parseInt10_opt (nth_error (split_colon (encodeValue c k)) 1))
          (Num (cfg_maxAttempts (options p)))
  = (cfg_maxAttempts (options p) <=? k)%Z.
Proof.
  intros Hc Hk. rewrite split_encodeValue by assumption. cbn [nth_error].
  rewrite truthy_to_string by exact Hk. unfold parseInt10_opt.
  rewrite parseInt10_to_string by exact Hk. reflexivity.
Qed.

Lemma verify_encoded_exhausted s e otp now w v c k :
  find_ident (identifier_of e) (verifications w) = Some v ->
  (now <= v_expiresAt v)%Z -> v_value v = encodeValue c k -> no_colon c = true ->
  (0 <= k)%Z -> (cfg_maxAttempts (options p) <= k)%Z ->
  verifyChangeEmailOTP memAdapter p (Some s) e otp now w =
  Err (BAD_REQUEST TOO_MANY_ATTEMPTS)
      (set_verifications w (filter (other_id (v_id v)) (verifications w)) (CallDelete (v_id v))).
Proof.
  intros Hf Hexp Hv Hc Hk Hm. apply verify_exhausted; try assumption.
  rewrite Hv, exhausted_encoded by assumption. apply Z.leb_le. exact Hm.
Qed.

Lemma verify_encoded_mismatch s e otp now w v c k :
  find_ident (identifier_of e) (verifications w) = Some v ->
  (now <= v_expiresAt v)%Z -> v_value v = encodeValue c k -> no_colon c = true ->
  (0 <= k < cfg_maxAttempts (options p))%Z -> c <> otp ->
  verifyChangeEmailOTP memAdapter p (Some s) e otp now w =
  Err (BAD_REQUEST INVALID_OTP)
      (set_verifications w (map (replace_value (v_id v) (encodeValue c (k + 1))) (verifications w))
         (CallUpdate (v_id v))).
Proof.
  intros Hf Hexp Hv Hc Hk Hne.
  rewrite (verify_mismatch s e otp now w v Hf Hexp).
  - rewrite Hv, split_encodeValue by (tauto || lia). cbn [nth_error hd].
    unfold parseInt10_opt. rewrite parseInt10_to_string by lia. reflexivity.
  - rewrite Hv, exhausted_encoded by (tauto || lia). apply Z.leb_gt. lia.
  - rewrite Hv, split_encodeValue by (tauto || lia). exact Hne.
Qed.

Lemma verify_encoded_match s e now w v c k :
  find_ident (identifier_of e) (verifications w) = Some v ->
  (now <= v_expiresAt v)%Z -> v_value v = encodeValue c k -> no_colon c = true ->
  (0 <= k < cfg_maxAttempts (options p))%Z ->
  verifyChangeEmailOTP memAdapter p (Some s) e c now w =
  Ok true {| verifications := filter (other_id (v_id v)) (verifications w);
             users := map (set_user (session_user_id s) e true) (users w);
             next_id := next_id w; outbox := outbox w;
             calls := calls w ++ [CallDelete (v_id v)] |}.
Proof.
  intros Hf Hexp Hv Hc Hk. apply verify_match; try assumption.
  - rewrite Hv, exhausted_encoded by (tauto || lia). apply Z.leb_gt. lia.
  - rewrite Hv, split_encodeValue by (tauto || lia). reflexivity.
Qed.

(** A counter that decodes to [NaN] is written back as [NaN]: such a
    record is never exhausted. *)
Lemma verify_nan_counter s e otp now w v c :
  find_ident (identifier_of e) (verifications w) = Some v ->
  (now <= v_expiresAt v)%Z -> v_value v = String.append c (String ":" "NaN") ->
  no_colon c = true -> c <> otp ->
  verifyChangeEmailOTP memAdapter p (Some s) e otp now w =
  Err (BAD_REQUEST INVALID_OTP)
      (set_verifications w (map (replace_value (v_id v) (v_value v)) (verifications w))
         (CallUpdate (v_id v))).
Proof.
  intros Hf Hexp Hv Hc Hne.
  assert (Hs : split_colon (v_value v) = [c; "NaN"%string]).
  { rewrite Hv, split_colon_encode by exact Hc. reflexivity. }
  rewrite (verify_mismatch s e otp now w v Hf Hexp).
  - rewrite Hs. cbn [hd nth_error]. rewrite Hv. reflexivity.
  - rewrite Hs. reflexivity.
  - rewrite Hs. exact Hne.
Qed.

End VerifyMem.

(** * Runs of verification requests *)

Section Runs.
Variable o : OtpOptions.



End Runs.

(** * The send handler on the in-memory store *)

Lemma bind_ok {S A B} (m : M S A) (k : A -> M S B) w a w' :
  m w = Ok a w' -> bind m k w = k a w'.
Proof. intros H. unfold bind. rewrite H. reflexivity. Qed.

Lemma generateOtp_some L draw : L <> 0%nat -> generateOtp L draw = Some (padStart0 draw L).
Proof.
  intros H. unfold generateOtp, generateRandomString.
  destruct (Nat.eqb_spec L 0); [contradiction | reflexivity].
Qed.

Lemma generateOtp_none_iff L draw : generateOtp L draw = None <-> L = 0%nat.
Proof.
  unfold generateOtp, generateRandomString.
  destruct (Nat.eqb_spec L 0); split; congruence.
Qed.

Lemma createOtp_some i o draw tz now otp :
  generateOtp (cfg_length o) draw = Some otp ->
  createOtp i o draw tz now =
  Some {| c_otp := otp; c_identifier := i;
          c_expiresAt := getExpirationDate tz now (cfg_expirationMinutes o) |}.
Proof. intros H. unfold createOtp. rewrite H. reflexivity. Qed.

Lemma createOtp_none i o draw tz now : cfg_length o = 0%nat -> createOtp i o draw tz now = None.
Proof. intros H. unfold createOtp. rewrite (proj2 (generateOtp_none_iff _ draw) H). reflexivity. Qed.

Section SendMem.
Variable p : Params World.

Lemma find_ident_app_last i l r :
  find_ident i l = None -> v_identifier r = i -> find_ident i (l ++ [r]) = Some r.
Proof.
  unfold find_ident. induction l as [|x l IH]; cbn [find app].
  - intros _ Hr. rewrite Hr, String.eqb_refl. reflexivity.
  - destruct (String.eqb (v_identifier x) i); [discriminate|]. exact IH.
Qed.

Lemma find_ident_filter_ident i l :
  find_ident i (filter (fun v => negb (String.eqb (v_identifier v) i)) l) = None.
Proof.
  apply find_ident_none_not_in. intros Hin. apply in_map_iff in Hin as (x & Hx & Hin).
  apply filter_In in Hin as [_ Hn]. rewrite Hx, String.eqb_refl in Hn. discriminate.
Qed.

Lemma unique_app_last l r :
  NoDup (map v_identifier l) -> find_ident (v_identifier r) l = None ->
  NoDup (map v_identifier (l ++ [r])).
Proof.
  intros Hnd Hf. rewrite map_app. apply NoDup_app; auto.
  - repeat constructor. intros [].
  - intros x Hx [Hy|[]]. subst x. apply find_ident_none_not_in in Hf. contradiction.
Qed.

(** Creating a record, replacing on conflict: the [.catch] block. *)
Lemma create_or_replace_mem inp w :
  let r := {| v_id := next_id w; v_identifier := in_identifier inp;
              v_value := in_value inp; v_expiresAt := in_expiresAt inp |} in
  exists w1,
    catch (mem_createVerificationValue inp)
          (fun _ => mem_deleteVerificationByIdentifier (in_identifier inp) ;;;
                    mem_createVerificationValue inp) w = Ok tt w1 /\
    find_ident (in_identifier inp) (verifications w1) = Some r /\
    (unique_identifiers w -> unique_identifiers w1) /\
    users w1 = users w /\ outbox w1 = outbox w /\
    calls w1 = calls w ++
      match find_ident (in_identifier inp) (verifications w) with
      | None => [CallCreate (in_identifier inp) true]
      | Some _ => [CallCreate (in_identifier inp) false;
                   CallDeleteByIdentifier (in_identifier inp);
                   CallCreate (in_identifier inp) true]
      end.
Proof.
  intros r. unfold catch, bind, mem_createVerificationValue at 1.
  destruct (find_ident (in_identifier inp) (verifications w)) as [old|] eqn:Eold.
  - unfold mem_deleteVerificationByIdentifier, mem_createVerificationValue.
    cbn [verifications set_verifications users next_id outbox calls].
    rewrite find_ident_filter_ident.
    eexists. split; [reflexivity|]. cbn [verifications users outbox calls].
    split; [apply find_ident_app_last; [apply find_ident_filter_ident | reflexivity]|].
    split; [|split; [reflexivity|split; [reflexivity|]]].
    + intros Hu. apply unique_app_last; [apply NoDup_map_filter; exact Hu|].
      apply find_ident_filter_ident.
    + rewrite <- !app_assoc. reflexivity.
  - eexists. split; [reflexivity|]. cbn [verifications users outbox calls].
    split; [apply find_ident_app_last; [exact Eold | reflexivity]|].
    split; [|split; [reflexivity|split; reflexivity]].
    intros Hu. apply unique_app_last; [exact Hu | exact Eold].
Qed.

Lemma send_mem_creates s e draw otp tz now w :
  find (fun u => String.eqb (user_email u) e) (users w) = None ->
  generateOtp (cfg_length (options p)) draw = Some otp ->
  let r := {| v_id := next_id w; v_identifier := identifier_of e;
              v_value := encodeValue otp 0;
              v_expiresAt := getExpirationDate tz now (cfg_expirationMinutes (options p)) |} in
  exists w1,
    sendChangeEmailOTP memAdapter p (Some s) e draw tz now w
      = bind (p_sendChangeEmailOTP p e otp) (fun _ => ret true) w1 /\
    find_ident (identifier_of e) (verifications w1) = Some r /\
    (unique_identifiers w -> unique_identifiers w1) /\
    users w1 = users w /\ outbox w1 = outbox w /\
    calls w1 = calls w ++
      match find_ident (identifier_of e) (verifications w) with
      | None => [CallCreate (identifier_of e) true]
      | Some _ => [CallCreate (identifier_of e) false;
                   CallDeleteByIdentifier (identifier_of e);
                   CallCreate (identifier_of e) true]
      end.
Proof.
  intros Hnone Hg r.
  set (inp := {| in_identifier := identifier_of e; in_value := String.append otp ":0";
                 in_expiresAt := getExpirationDate tz now (cfg_expirationMinutes (options p)) |}).
  destruct (create_or_replace_mem inp w) as (w1 & Hc & Hf & Hu & Hus & Ho & Hcalls).
  exists w1. split; [|split; [|split; [|split; [|split]]]]; try assumption.
  - unfold sendChangeEmailOTP. rewrite (createOtp_some _ _ _ tz now _ Hg). unfold bind at 1.
    cbn [findUserByEmail createVerificationValue deleteVerificationByIdentifier memAdapter].
    unfold mem_findUserByEmail. rewrite Hnone.
    change (bind (catch (mem_createVerificationValue inp)
                   (fun _ => mem_deleteVerificationByIdentifier (in_identifier inp) ;;;
                             mem_createVerificationValue inp))
                 (fun _ => p_sendChangeEmailOTP p e otp ;;; ret true) w
            = (p_sendChangeEmailOTP p e otp ;;; ret true) w1).
    exact (bind_ok _ (fun _ => p_sendChangeEmailOTP p e otp ;;; ret true) _ _ _ Hc).
Qed.

(** With [length: 0] the send throws at [createOtp], before anything else. *)
Lemma send_zero_length {S} (ad : InternalAdapter S) (q : Params S) s e draw tz now st :
  cfg_length (options q) = 0%nat ->
  sendChangeEmailOTP ad q (Some s) e draw tz now st = Err generateRandomString_error st.
Proof. intros H0. unfold sendChangeEmailOTP. rewrite createOtp_none by exact H0. reflexivity. Qed.

(** An email already held by a user in the directory is refused before
    anything is written (after the [createOtp] throw, at [length: 0]). *)
Lemma send_mem_existing s e draw tz now w u :
  In u (users w) -> user_email u = e ->
  sendChangeEmailOTP memAdapter p (Some s) e draw tz now w
  = Err (if Nat.eqb (cfg_length (options p)) 0 then generateRandomString_error
         else BAD_REQUEST EMAIL_ALREADY_EXISTS) w.
Proof.
  intros Hin He. destruct (Nat.eqb_spec (cfg_length (options p)) 0) as [H0|H0].
  - apply send_zero_length. exact H0.
  - unfold sendChangeEmailOTP.
    rewrite (createOtp_some _ _ _ tz now _ (generateOtp_some _ draw H0)).
    unfold bind, throw. cbn [findUserByEmail memAdapter]. unfold mem_findUserByEmail.
    destruct (find (fun u => String.eqb (user_email u) e) (users w)) eqn:E; [reflexivity|].
    exfalso. apply (find_none _ _ E) in Hin. rewrite He, String.eqb_refl in Hin. discriminate.
Qed.

End SendMem.

(** * Code generation *)

Lemma length_append s t : String.length (String.append s t) = (String.length s + String.length t)%nat.
Proof. induction s as [|c s IH]; cbn; [reflexivity | rewrite IH; reflexivity]. Qed.

Lemma all_digits_append s t : all_digits (String.append s t) = all_digits s && all_digits t.
Proof.
  induction s as [|c s IH]; cbn; [reflexivity|]. rewrite IH. apply andb_assoc.
Qed.

Lemma zeros_length n : String.length (string_of_list_ascii (repeat "0"%char n)) = n.
Proof. induction n as [|n IH]; cbn; [reflexivity | rewrite IH; reflexivity]. Qed.

Lemma zeros_digits n : all_digits (string_of_list_ascii (repeat "0"%char n)) = true.
Proof. induction n as [|n IH]; cbn; [reflexivity | exact IH]. Qed.

Lemma padStart0_length L str :
  String.length (padStart0 str L) = Nat.max L (String.length str).
Proof.
  unfold padStart0. destruct (Nat.leb_spec L (String.length str)).
  - lia.
  - rewrite length_append, zeros_length. lia.
Qed.

Lemma padStart0_digits L str : all_digits str = true -> all_digits (padStart0 str L) = true.
Proof.
  intros H. unfold padStart0. destruct (L <=? String.length str)%nat; [exact H|].
  rewrite all_digits_append, zeros_digits, H. reflexivity.
Qed.

Lemma generateOtp_length L draw otp :
  generateOtp L draw = Some otp -> String.length otp = Nat.max L (String.length draw).
Proof.
  intros H. destruct (Nat.eqb_spec L 0) as [H0|H0].
  - apply (generateOtp_none_iff L draw) in H0. congruence.
  - rewrite generateOtp_some in H by exact H0. injection H as <-. apply padStart0_length.
Qed.

Lemma generateOtp_digits L draw otp :
  generateOtp L draw = Some otp -> all_digits draw = true -> all_digits otp = true.
Proof.
  intros H Hd. destruct (Nat.eqb_spec L 0) as [H0|H0].
  - apply (generateOtp_none_iff L draw) in H0. congruence.
  - rewrite generateOtp_some in H by exact H0. injection H as <-. apply padStart0_digits. exact Hd.
Qed.

(** * Whole-handler facts on the in-memory store *)

Section HandlerFacts.
Variable p : Params World.

(** The only successful path of verify is the code-match branch. *)
Lemma verify_mem_ok_inv s e otp now w b w1 :
  verifyChangeEmailOTP memAdapter p (Some s) e otp now w = Ok b w1 ->
  exists v, find_ident (identifier_of e) (verifications w) = Some v /\
    w1 = {| verifications := filter (other_id (v_id v)) (verifications w);
            users := map (set_user (session_user_id s) e true) (users w);
            next_id := next_id w; outbox := outbox w;
            calls := calls w ++ [CallDelete (v_id v)] |}.
Proof.
  unfold verifyChangeEmailOTP, bind, throw, ret.
  cbn [findVerificationValue deleteVerificationValue updateVerificationValue updateUser memAdapter].
  unfold mem_findVerificationValue.
  destruct (find_ident (identifier_of e) (verifications w)) as [v|]; [|discriminate].
  destruct (v_expiresAt v <? now)%Z; [discriminate|]. cbv zeta.
  destruct (truthy _ && ge _ _); [discriminate|].
  destruct (negb _); [discriminate|].
  intros H. injection H as _ <-. exists v. split; reflexivity.
Qed.

Lemma verify_mem_unique s e otp now w :
  unique_identifiers w ->
  unique_identifiers (state_of (verifyChangeEmailOTP memAdapter p s e otp now w)).
Proof.
  intros Hu. destruct s as [s|]; [|exact Hu].
  unfold verifyChangeEmailOTP, bind, throw, ret.
  cbn [findVerificationValue deleteVerificationValue updateVerificationValue updateUser memAdapter].
  unfold mem_findVerificationValue.
  destruct (find_ident (identifier_of e) (verifications w)) as [v|]; [|exact Hu].
  destruct (v_expiresAt v <? now)%Z; [exact Hu|]. cbv zeta.
  unfold unique_identifiers in *.
  destruct (truthy _ && ge _ _); [cbn; apply NoDup_map_filter; exact Hu|].
  destruct (negb _); cbn.
  - rewrite map_identifier_replace. exact Hu.
  - apply NoDup_map_filter. exact Hu.
Qed.

End HandlerFacts.

Lemma send_mem_unique o s e draw tz now w :
  unique_identifiers w ->
  unique_identifiers (state_of (sendChangeEmailOTP memAdapter (memParams o) s e draw tz now w)).
Proof.
  intros Hu. destruct s as [s|]; [|exact Hu].
  destruct (generateOtp (cfg_length o) draw) as [otp|] eqn:Hg.
  2: { rewrite send_zero_length by (apply (generateOtp_none_iff _ draw); exact Hg). exact Hu. }
  destruct (find (fun u => String.eqb (user_email u) e) (users w)) as [u|] eqn:E.
  - apply find_some in E as [Hin He]. apply String.eqb_eq in He.
    rewrite (send_mem_existing _ s e draw tz now w u Hin He). exact Hu.
  - destruct (send_mem_creates (memParams o) s e draw otp tz now w E Hg) as (w1 & Hs & _ & Hu1 & _).
    rewrite Hs. exact (Hu1 Hu).
Qed.

(** * Frame and shape lemmas for the extra properties *)

Section Frame.

Lemma find_ident_map_frame i f vs :
  (forall x, In x vs -> v_identifier (f x) = v_identifier x) ->
  (forall x, In x vs -> v_identifier x = i -> f x = x) ->
  find_ident i (map f vs) = find_ident i vs.
Proof.
  unfold find_ident. induction vs as [|x vs IH]; intros Hid Hfix; cbn [map find]; [reflexivity|].
  rewrite (Hid x (or_introl eq_refl)).
  destruct (String.eqb_spec (v_identifier x) i) as [E|E].
  - rewrite (Hfix x (or_introl eq_refl) E). reflexivity.
  - apply IH; intros y Hy; [apply Hid | apply Hfix]; right; exact Hy.
Qed.

Lemma find_ident_filter_frame i q vs :
  (forall x, In x vs -> v_identifier x = i -> q x = true) ->
  find_ident i (filter q vs) = find_ident i vs.
Proof.
  unfold find_ident. induction vs as [|x vs IH]; intros Hq; cbn [filter find]; [reflexivity|].
  destruct (String.eqb_spec (v_identifier x) i) as [E|E].
  - rewrite (Hq x (or_introl eq_refl) E). cbn [find].
    rewrite (proj2 (String.eqb_eq _ _) E). reflexivity.
  - destruct (q x); cbn [find];
      [rewrite (proj2 (String.eqb_neq _ _) E) |];
      apply IH; intros y Hy; apply Hq; right; exact Hy.
Qed.

Lemma find_ident_app i l1 l2 :
  find_ident i (l1 ++ l2) =
  match find_ident i l1 with Some x => Some x | None => find_ident i l2 end.
Proof.
  unfold find_ident. induction l1 as [|x l1 IH]; cbn [app find]; [reflexivity|].
  destruct (String.eqb (v_identifier x) i); [reflexivity | exact IH].
Qed.

Lemma NoDup_map_same {A B} (f : A -> B) l x y :
  NoDup (map f l) -> In x l -> In y l -> f x = f y -> x = y.
Proof.
  induction l as [|z l IH]; cbn [map In]; [tauto|].
  intros Hnd Hx Hy Hf. apply NoDup_cons_iff in Hnd as [Hn Hnd].
  destruct Hx as [<-|Hx], Hy as [<-|Hy]; auto.
  - exfalso. apply Hn. rewrite Hf. apply in_map. exact Hy.
  - exfalso. apply Hn. rewrite <- Hf. apply in_map. exact Hx.
Qed.

(** The [.catch] block on the in-memory store, with the resulting list. *)
Lemma create_or_replace_shape inp w :
  catch (mem_createVerificationValue inp)
        (fun _ => mem_deleteVerificationByIdentifier (in_identifier inp) ;;;
                  mem_createVerificationValue inp) w =
  Ok tt {| verifications :=
             match find_ident (in_identifier inp) (verifications w) with
             | None => verifications w
             | Some _ => filter (fun v => negb (String.eqb (v_identifier v) (in_identifier inp)))
                           (verifications w)
             end ++
             [{| v_id := next_id w; v_identifier := in_identifier inp;
                 v_value := in_value inp; v_expiresAt := in_expiresAt inp |}];
           users := users w; next_id := S (next_id w); outbox := outbox w;
           calls := calls w ++
             match find_ident (in_identifier inp) (verifications w) with
             | None => [CallCreate (in_identifier inp) true]
             | Some _ => [CallCreate (in_identifier inp) false;
                          CallDeleteByIdentifier (in_identifier inp);
                          CallCreate (in_identifier inp) true]
             end |}.
Proof.
  unfold catch, bind, mem_createVerificationValue at 1.
  destruct (find_ident (in_identifier inp) (verifications w)) as [old|] eqn:Eold;
    [|reflexivity].
  unfold mem_deleteVerificationByIdentifier, mem_createVerificationValue.
  cbn [verifications set_verifications users next_id outbox calls].
  rewrite find_ident_filter_ident. rewrite <- !app_assoc. reflexivity.
Qed.

(** A successful send on the in-memory store with the recording notifier. *)
Lemma send_mem_shape o s e draw otp tz now w :
  find (fun u => String.eqb (user_email u) e) (users w) = None ->
  generateOtp (cfg_length o) draw = Some otp ->
  sendChangeEmailOTP memAdapter (memParams o) (Some s) e draw tz now w =
  Ok true {| verifications :=
               match find_ident (identifier_of e) (verifications w) with
               | None => verifications w
               | Some _ => filter (fun v => negb (String.eqb (v_identifier v) (identifier_of e)))
                             (verifications w)
               end ++
               [{| v_id := next_id w; v_identifier := identifier_of e;
                   v_value := encodeValue otp 0;
                   v_expiresAt := getExpirationDate tz now (cfg_expirationMinutes o) |}];
             users := users w; next_id := S (next_id w);
             outbox := outbox w ++ [(e, otp)];
             calls := calls w ++
               match find_ident (identifier_of e) (verifications w) with
               | None => [CallCreate (identifier_of e) true]
               | Some _ => [CallCreate (identifier_of e) false;
                            CallDeleteByIdentifier (identifier_of e);
                            CallCreate (identifier_of e) true]
               end |}.
Proof.
  intros Hnone Hg.
  set (inp := {| in_identifier := identifier_of e;
                 in_value := String.append otp ":0";
                 in_expiresAt := getExpirationDate tz now (cfg_expirationMinutes o) |}).
  unfold sendChangeEmailOTP. rewrite (createOtp_some _ _ _ tz now _ Hg). unfold bind at 1.
  cbn [findUserByEmail createVerificationValue deleteVerificationByIdentifier memAdapter].
  unfold mem_findUserByEmail. rewrite Hnone.
  transitivity (bind (catch (mem_createVerificationValue inp)
                 (fun _ => mem_deleteVerificationByIdentifier (in_identifier inp) ;;;
                           mem_createVerificationValue inp))
               (fun _ => mem_notify e otp ;;; ret true) w);
    [reflexivity|].
  rewrite (bind_ok _ _ _ _ _ (create_or_replace_shape inp w)). reflexivity.
Qed.

Lemma find_ident_last_not_none i l r :
  v_identifier r = i -> find_ident i (l ++ [r]) <> None.
Proof.
  intros Hr. unfold find_ident. induction l as [|x l IH]; cbn [app find].
  - rewrite Hr, String.eqb_refl. discriminate.
  - destruct (String.eqb (v_identifier x) i); [discriminate | exact IH].
Qed.

Lemma count_ident_none i vs : find_ident i vs = None -> count_ident i vs = 0%nat.
Proof.
  unfold count_ident, find_ident. induction vs as [|x vs IH]; cbn [find filter]; [reflexivity|].
  destruct (String.eqb (v_identifier x) i); [discriminate | exact IH].
Qed.

(** After a successful send exactly one record is stored for the address,
    whatever the store held for it before. *)
Lemma send_mem_single_record o s e draw otp tz now w :
  find (fun u => String.eqb (user_email u) e) (users w) = None ->
  generateOtp (cfg_length o) draw = Some otp ->
  count_ident (identifier_of e)
    (verifications (state_of (sendChangeEmailOTP memAdapter (memParams o) (Some s) e draw tz now w)))
  = 1%nat.
Proof.
  intros Hnone Hg. rewrite (send_mem_shape o s e draw otp tz now w Hnone Hg).
  cbn [state_of verifications]. unfold count_ident. rewrite filter_app, length_app.
  cbn [filter v_identifier]. rewrite String.eqb_refl.
  change (length (filter (fun v => String.eqb (v_identifier v) (identifier_of e)) ?l))
    with (count_ident (identifier_of e) l).
  destruct (find_ident (identifier_of e) (verifications w)) eqn:E;
    rewrite count_ident_none; try reflexivity.
  - apply find_ident_filter_ident.
  - exact E.
Qed.

End Frame.

(** * The claims *)




(** C2 (code defect): a stored value without a counter (["123456"]) or with
    a non-numeric one (["123456:abc"]) does not decode to 0 on the increment
    path: a wrong code rewrites it as ["123456:NaN"], not ["123456:1"], and
    the counter never grows, so ten wrong codes are all answered
    INVALID_OTP and the right code is still accepted afterwards. *)
Lemma C2_missing_counter_becomes_NaN :
  option_map v_value (find_ident (identifier_of demo_email)
    (verifications (snd (verify_seq noOptions (Some demo_session) demo_email 10
                           ["000000"%string] (world_with_value "123456")))))
    = Some "123456:NaN"%string /\
  option_map v_value (find_ident (identifier_of demo_email)
    (verifications (snd (verify_seq noOptions (Some demo_session) demo_email 10
                           ["000000"%string] (world_with_value "123456:abc")))))
    = Some "123456:NaN"%string /\
  fst (verify_seq noOptions (Some demo_session) demo_email 10
         (repeat "000000"%string 10 ++ ["123456"%string]) (world_with_value "123456"))
    = repeat (Some (BAD_REQUEST INVALID_OTP)) 10 ++ [None].
Proof. split; [|split]; vm_compute; reflexivity. Qed.

(** C3: the verify handler checks, in order, existence, expiry, attempt
    exhaustion and code equality.  An expired record yields OTP_EXPIRED
    whatever its value (counter at or above maxAttempts included) and
    whatever the submitted code, and the store is left exactly as it was. *)
Theorem C3_check_order p s e otp now w :
  (find_ident (identifier_of e) (verifications w) = None ->
     verifyChangeEmailOTP memAdapter p (Some s) e otp now w = Err (BAD_REQUEST INVALID_OTP) w) /\
  (forall v, find_ident (identifier_of e) (verifications w) = Some v ->
     (v_expiresAt v < now)%Z ->
     verifyChangeEmailOTP memAdapter p (Some s) e otp now w = Err (BAD_REQUEST OTP_EXPIRED) w) /\
  (forall v c k, find_ident (identifier_of e) (verifications w) = Some v ->
     (now <= v_expiresAt v)%Z -> v_value v = encodeValue c k -> no_colon c = true ->
     (0 <= k)%Z -> (cfg_maxAttempts (options p) <= k)%Z ->
     outcome (verifyChangeEmailOTP memAdapter p (Some s) e otp now w)
       = Some (BAD_REQUEST TOO_MANY_ATTEMPTS)) /\
  (forall v c k, find_ident (identifier_of e) (verifications w) = Some v ->
     (now <= v_expiresAt v)%Z -> v_value v = encodeValue c k -> no_colon c = true ->
     (0 <= k < cfg_maxAttempts (options p))%Z -> c <> otp ->
     outcome (verifyChangeEmailOTP memAdapter p (Some s) e otp now w)
       = Some (BAD_REQUEST INVALID_OTP)) /\
  (forall v k, find_ident (identifier_of e) (verifications w) = Some v ->
     (now <= v_expiresAt v)%Z -> v_value v = encodeValue otp k -> no_colon otp = true ->
     (0 <= k < cfg_maxAttempts (options p))%Z ->
     outcome (verifyChangeEmailOTP memAdapter p (Some s) e otp now w) = None).
Proof.
  split; [apply verify_no_record|]. split; [intros v; apply verify_expired|].
  split; [|split].
  - intros v c k Hf Hexp Hv Hc Hk Hm.
    rewrite (verify_encoded_exhausted p s e otp now w v c k); auto.
  - intros v c k Hf Hexp Hv Hc Hk Hne.
    rewrite (verify_encoded_mismatch p s e otp now w v c k); auto.
  - intros v k Hf Hexp Hv Hc Hk.
    rewrite (verify_encoded_match p s e now w v otp k); auto.
Qed.

(** C4: two successive requests for the same address, each generating a
    code.  The second creation conflicts, so the handler deletes the first
    record by identifier and creates the new one once; afterwards only the
    second code verifies and the first returns INVALID_OTP.  If the creation
    after the delete fails too, that rejection is what the handler throws,
    with no further call.  After any successful send exactly one record is
    stored for the address, whatever the store held for it before. *)
Theorem C4_replace_on_conflict o s e d1 d2 otp1 otp2 tz now1 now2 now3 w :
  find (fun u => String.eqb (user_email u) e) (users w) = None ->
  generateOtp (cfg_length o) d1 = Some otp1 -> generateOtp (cfg_length o) d2 = Some otp2 ->
  all_digits d2 = true -> otp1 <> otp2 ->
  (0 < cfg_maxAttempts o)%Z ->
  (now3 <= getExpirationDate tz now2 (cfg_expirationMinutes o))%Z ->
  (exists w1 w2,
     sendChangeEmailOTP memAdapter (memParams o) (Some s) e d1 tz now1 w = Ok true w1 /\
     sendChangeEmailOTP memAdapter (memParams o) (Some s) e d2 tz now2 w1 = Ok true w2 /\
     calls w2 = calls w1 ++ [CallCreate (identifier_of e) false;
                             CallDeleteByIdentifier (identifier_of e);
                             CallCreate (identifier_of e) true] /\
     outcome (verifyChangeEmailOTP memAdapter (memParams o) (Some s) e otp1 now3 w2)
       = Some (BAD_REQUEST INVALID_OTP) /\
     outcome (verifyChangeEmailOTP memAdapter (memParams o) (Some s) e otp2 now3 w2) = None) /\
  (forall S (ad : InternalAdapter S) (p : Params S) s' e' draw tz' now c st0 st1 st2 st3 st4
          err1 err2,
     createOtp (identifier_of e') (options p) draw tz' now = Some c ->
     findUserByEmail ad e' st0 = Ok None st1 ->
     createVerificationValue ad
       {| in_identifier := c_identifier c; in_value := String.append (c_otp c) ":0";
          in_expiresAt := c_expiresAt c |} st1 = Err err1 st2 ->
     deleteVerificationByIdentifier ad (c_identifier c) st2 = Ok tt st3 ->
     createVerificationValue ad
       {| in_identifier := c_identifier c; in_value := String.append (c_otp c) ":0";
          in_expiresAt := c_expiresAt c |} st3 = Err err2 st4 ->
     sendChangeEmailOTP ad p (Some s') e' draw tz' now st0 = Err err2 st4) /\
  (forall o' s' e' draw otp tz' now w',
     find (fun u => String.eqb (user_email u) e') (users w') = None ->
     generateOtp (cfg_length o') draw = Some otp ->
     count_ident (identifier_of e')
       (verifications (state_of (sendChangeEmailOTP memAdapter (memParams o') (Some s') e' draw
                                   tz' now w'))) = 1%nat).
Proof.
  intros Hnone Hg1 Hg2 Hd2 Hne Hm Hexp. split; [|split].
  - pose proof (send_mem_shape o s e d1 otp1 tz now1 w Hnone Hg1) as Hsend1.
    set (w1 := {| verifications := _ |}) in Hsend1.
    assert (Hnone1 : find (fun u => String.eqb (user_email u) e) (users w1) = None) by exact Hnone.
    pose proof (send_mem_shape o s e d2 otp2 tz now2 w1 Hnone1 Hg2) as Hsend2.
    set (w2 := {| verifications := _ |}) in Hsend2.
    assert (Hfw1 : find_ident (identifier_of e) (verifications w1) <> None).
    { unfold w1. cbn [verifications]. apply find_ident_last_not_none. reflexivity. }
    assert (Hfw2 : find_ident (identifier_of e) (verifications w2) =
                   Some {| v_id := next_id w1; v_identifier := identifier_of e;
                           v_value := encodeValue otp2 0;
                           v_expiresAt := getExpirationDate tz now2 (cfg_expirationMinutes o) |}).
    { unfold w2. cbn [verifications]. apply find_ident_app_last; [|reflexivity].
      destruct (find_ident (identifier_of e) (verifications w1)); [|contradiction].
      apply find_ident_filter_ident. }
    assert (Hc : no_colon otp2 = true)
      by (apply all_digits_no_colon; exact (generateOtp_digits _ _ _ Hg2 Hd2)).
    exists w1, w2. split; [exact Hsend1|]. split; [exact Hsend2|]. split.
    + unfold w2. cbn [calls]. destruct (find_ident (identifier_of e) (verifications w1));
        [reflexivity | contradiction].
    + split.
      * rewrite (verify_encoded_mismatch (memParams o) s e _ now3 w2 _ otp2 0 Hfw2);
          cbn [options memParams v_expiresAt v_value]; auto; lia.
      * rewrite (verify_encoded_match (memParams o) s e now3 w2 _ otp2 0 Hfw2);
          cbn [options memParams v_expiresAt v_value]; auto; lia.
  - intros S ad p s' e' draw tz' now c st0 st1 st2 st3 st4 err1 err2 Hc H1 H2 H3 H4.
    unfold sendChangeEmailOTP. rewrite Hc. unfold bind at 1. rewrite H1.
    unfold bind at 1, catch. rewrite H2. unfold bind at 1. rewrite H3, H4. reflexivity.
  - intros o' s' e' draw otp tz' now w' Hnone' Hg'.
    exact (send_mem_single_record o' s' e' draw otp tz' now w' Hnone' Hg').
Qed.

(** Witness for C4: two requests for [demo_email] with the codes 042613
    and 777777, then verification at instant 2000. *)
Lemma C4_replace_on_conflict_witness :
  exists w1 w2,
    sendChangeEmailOTP memAdapter (memParams noOptions) (Some demo_session) demo_email
      "042613"%string utc_zone 0 demo_world = Ok true w1 /\
    sendChangeEmailOTP memAdapter (memParams noOptions) (Some demo_session) demo_email
      "777777"%string utc_zone 1000 w1 = Ok true w2 /\
    calls w2 = calls w1 ++ [CallCreate (identifier_of demo_email) false;
                            CallDeleteByIdentifier (identifier_of demo_email);
                            CallCreate (identifier_of demo_email) true] /\
    outcome (verifyChangeEmailOTP memAdapter (memParams noOptions) (Some demo_session) demo_email
               "042613" 2000 w2) = Some (BAD_REQUEST INVALID_OTP) /\
    outcome (verifyChangeEmailOTP memAdapter (memParams noOptions) (Some demo_session) demo_email
               "777777" 2000 w2) = None.
Proof.
  refine (proj1 (C4_replace_on_conflict noOptions demo_session demo_email "042613"%string
                   "777777"%string "042613"%string "777777"%string utc_zone 0 1000 2000 demo_world
                   _ _ _ _ _ _ _)).
  - vm_compute. reflexivity.
  - vm_compute. reflexivity.
  - vm_compute. reflexivity.
  - vm_compute. reflexivity.
  - discriminate.
  - vm_compute. reflexivity.
  - vm_compute. discriminate.
Defined.

(** C5: a successful verification consumes the record in the same call
    (one store deletion, by the record's id), sets the caller's email to the
    submitted address with emailVerified = true, and any later verification
    for that address, whatever the code, returns INVALID_OTP. *)
Theorem C5_single_use p s e otp now w w1 u :
  unique_identifiers w -> In u (users w) -> user_id u = session_user_id s ->
  verifyChangeEmailOTP memAdapter p (Some s) e otp now w = Ok true w1 ->
  find_ident (identifier_of e) (verifications w1) = None /\
  (exists v, find_ident (identifier_of e) (verifications w) = Some v /\
             calls w1 = calls w ++ [CallDelete (v_id v)]) /\
  (exists u', In u' (users w1) /\ user_id u' = session_user_id s /\
              user_email u' = e /\ user_emailVerified u' = true) /\
  (forall s' otp' now',
     verifyChangeEmailOTP memAdapter p (Some s') e otp' now' w1 = Err (BAD_REQUEST INVALID_OTP) w1).
Proof.
  intros Hu Hin Hid Hok.
  destruct (verify_mem_ok_inv p s e otp now w true w1 Hok) as (v & Hf & ->).
  assert (Hgone : find_ident (identifier_of e) (filter (other_id (v_id v)) (verifications w)) = None)
    by exact (find_ident_delete _ _ _ Hu Hf).
  split; [exact Hgone|]. split; [exists v; split; [exact Hf | reflexivity]|]. split.
  - exists (set_user (session_user_id s) e true u). cbn [users].
    split; [apply in_map; exact Hin|].
    unfold set_user. rewrite Hid, String.eqb_refl. cbn. auto.
  - intros s' otp' now'. apply verify_no_record. exact Hgone.
Qed.

(** Witness for C5: the pending request verified with its code 042613. *)
Lemma C5_single_use_witness :
  find_ident (identifier_of demo_email)
    (verifications (state_of (verifyChangeEmailOTP memAdapter (memParams noOptions)
       (Some demo_session) demo_email "042613" 10 demo_pending))) = None /\
  (exists v, find_ident (identifier_of demo_email) (verifications demo_pending) = Some v /\
     calls (state_of (verifyChangeEmailOTP memAdapter (memParams noOptions)
       (Some demo_session) demo_email "042613" 10 demo_pending))
     = calls demo_pending ++ [CallDelete (v_id v)]) /\
  (exists u', In u' (users (state_of (verifyChangeEmailOTP memAdapter (memParams noOptions)
       (Some demo_session) demo_email "042613" 10 demo_pending))) /\
     user_id u' = session_user_id demo_session /\ user_email u' = demo_email /\
     user_emailVerified u' = true) /\
  (forall s' otp' now',
     verifyChangeEmailOTP memAdapter (memParams noOptions) (Some s') demo_email otp' now'
       (state_of (verifyChangeEmailOTP memAdapter (memParams noOptions)
          (Some demo_session) demo_email "042613" 10 demo_pending))
     = Err (BAD_REQUEST INVALID_OTP)
         (state_of (verifyChangeEmailOTP memAdapter (memParams noOptions)
            (Some demo_session) demo_email "042613" 10 demo_pending))).
Proof.
  apply (C5_single_use (memParams noOptions) demo_session demo_email "042613" 10 demo_pending
           _ demo_user).
  - vm_compute. repeat constructor; simpl; tauto.
  - vm_compute. left. reflexivity.
  - reflexivity.
  - vm_compute. reflexivity.
Defined.

(** C6 (as amended): when the directory holds a user with the requested
    address, the send handler writes nothing (no record, no store call, no
    notification: the world is returned unchanged) and throws
    EMAIL_ALREADY_EXISTS, unless the configured length is 0, where
    [createOtp] has already thrown the length error before the lookup. *)
Theorem C6_existing_email_rejected p s e draw tz now w u :
  In u (users w) -> user_email u = e ->
  sendChangeEmailOTP memAdapter p (Some s) e draw tz now w
  = Err (if Nat.eqb (cfg_length (options p)) 0 then generateRandomString_error
         else BAD_REQUEST EMAIL_ALREADY_EXISTS) w.
Proof. intros Hin He. exact (send_mem_existing p s e draw tz now w u Hin He). Qed.

(** C6 fails as stated: with [length: 0] a request for an address held by
    another user throws the length error, not EMAIL_ALREADY_EXISTS. *)
Lemma C6_length_zero_throws_first :
  sendChangeEmailOTP memAdapter (memParams zero_length_options) (Some demo_session)
    "taken@example.com" "042613" utc_zone 0 demo_world
  = Err (Rejected "Length must be a positive integer.") demo_world.
Proof. vm_compute. reflexivity. Qed.

(** Witness for C6: an address held by another user, default options. *)
Lemma C6_existing_email_rejected_witness :
  sendChangeEmailOTP memAdapter (memParams noOptions) (Some demo_session) "taken@example.com"
    "042613" utc_zone 0 demo_world = Err (BAD_REQUEST EMAIL_ALREADY_EXISTS) demo_world.
Proof.
  exact (C6_existing_email_rejected (memParams noOptions) demo_session "taken@example.com"
           "042613" utc_zone 0 demo_world other_user
           ltac:(vm_compute; right; left; reflexivity) eq_refl).
Defined.

(** C7: when the notifier rejects after the record was written, the send
    handler throws the notifier's own rejection, and the record it wrote is
    still in the store and verifies with the code that was generated. *)
Theorem C7_notifier_failure_keeps_record p s e draw otp tz now w err :
  find (fun u => String.eqb (user_email u) e) (users w) = None ->
  generateOtp (cfg_length (options p)) draw = Some otp ->
  (forall e' otp' w', exists w'',
     p_sendChangeEmailOTP p e' otp' w' = Err err w'' /\ verifications w'' = verifications w') ->
  all_digits draw = true -> (0 < cfg_maxAttempts (options p))%Z ->
  exists w',
    sendChangeEmailOTP memAdapter p (Some s) e draw tz now w = Err err w' /\
    find_ident (identifier_of e) (verifications w') =
      Some {| v_id := next_id w; v_identifier := identifier_of e;
              v_value := encodeValue otp 0;
              v_expiresAt := getExpirationDate tz now (cfg_expirationMinutes (options p)) |} /\
    (forall s' now',
       (now' <= getExpirationDate tz now (cfg_expirationMinutes (options p)))%Z ->
       outcome (verifyChangeEmailOTP memAdapter p (Some s') e otp now' w') = None).
Proof.
  intros Hnone Hg Hnotify Hd Hm.
  destruct (send_mem_creates p s e draw otp tz now w Hnone Hg) as (w1 & Hs & Hf & _).
  destruct (Hnotify e otp w1) as (w2 & Hn & Hv).
  exists w2. split; [|split].
  - rewrite Hs. unfold bind. rewrite Hn. reflexivity.
  - rewrite Hv. exact Hf.
  - intros s' now' Hexp. rewrite <- Hv in Hf.
    rewrite (verify_encoded_match p s' e now' w2 _ _ 0 Hf); cbn [v_expiresAt v_value]; auto.
    + apply all_digits_no_colon. exact (generateOtp_digits _ _ _ Hg Hd).
    + lia.
Qed.

(** Witness for C7: the notifier [failing_notify] rejects. *)
Lemma C7_notifier_failure_keeps_record_witness :
  exists w',
    sendChangeEmailOTP memAdapter {| options := noOptions; p_sendChangeEmailOTP := failing_notify |}
      (Some demo_session) demo_email "042613" utc_zone 0 demo_world
      = Err (Rejected "smtp unavailable") w' /\
    find_ident (identifier_of demo_email) (verifications w') =
      Some {| v_id := 0; v_identifier := identifier_of demo_email;
              v_value := encodeValue "042613" 0;
              v_expiresAt := getExpirationDate utc_zone 0 5 |} /\
    (forall s' now', (now' <= getExpirationDate utc_zone 0 5)%Z ->
       outcome (verifyChangeEmailOTP memAdapter
                  {| options := noOptions; p_sendChangeEmailOTP := failing_notify |} (Some s')
                  demo_email "042613" now' w') = None).
Proof.
  apply (C7_notifier_failure_keeps_record
           {| options := noOptions; p_sendChangeEmailOTP := failing_notify |}
           demo_session demo_email "042613" "042613" utc_zone 0 demo_world
           (Rejected "smtp unavailable")).
  - vm_compute. reflexivity.
  - vm_compute. reflexivity.
  - intros e' otp' w'. exists w'. split; reflexivity.
  - vm_compute. reflexivity.
  - vm_compute. reflexivity.
Defined.

(** C8 (as amended): [generateOtp 0] throws (the length error of
    [generateRandomString]); for L >= 1 and a draw of decimal digits no
    longer than L (the random string [generateRandomString(L, "0-9")] has
    exactly L), [generateOtp L] returns a string of exactly L decimal
    digits; a shorter draw is padded with leading zeros. *)
Theorem C8_generateOtp_length L draw :
  generateOtp 0 draw = None /\
  ((0 < L)%nat -> all_digits draw = true -> (String.length draw <= L)%nat ->
   exists otp, generateOtp L draw = Some otp /\
               String.length otp = L /\ all_digits otp = true).
Proof.
  split; [reflexivity|]. intros HL Hd Hl.
  assert (Hg : generateOtp L draw = Some (padStart0 draw L)) by (apply generateOtp_some; lia).
  exists (padStart0 draw L). split; [exact Hg|]. split.
  - rewrite (generateOtp_length _ _ _ Hg). lia.
  - exact (generateOtp_digits _ _ _ Hg Hd).
Qed.

(** C8 fails as stated: for the configured length 0 no string is
    returned, [generateRandomString] throws. *)
Lemma C8_length_zero_throws :
  generateOtp 0 "" = None /\ generateOtp 0 "123456" = None.
Proof. split; reflexivity. Qed.

(** Witness for C8: the draw "42" becomes "000042". *)
Lemma C8_generateOtp_length_witness :
  generateOtp 6 "42" = Some "000042"%string /\
  exists otp, generateOtp 6 "42" = Some otp /\
              String.length otp = 6%nat /\ all_digits otp = true.
Proof.
  split; [vm_compute; reflexivity|].
  apply (proj2 (C8_generateOtp_length 6 "42")); vm_compute; [lia | reflexivity | repeat constructor].
Defined.

(** C9: neither declared [pathMatcher] accepts either endpoint path, so no
    rule of the plugin's [rateLimit] table applies to the endpoints. *)
Theorem C9_rate_limit_never_matches path :
  In path endpoint_paths ->
  (forall r, In r rateLimit -> pathMatcher r path = false) /\
  filter (fun r => pathMatcher r path) rateLimit = [].
Proof.
  intros Hp. cbn [endpoint_paths In] in Hp.
  destruct Hp as [<-|[<-|[]]]; split; try reflexivity;
    intros r Hr; cbn [rateLimit In] in Hr; destruct Hr as [<-|[<-|[]]]; reflexivity.
Qed.

(** Witness for C9: the send endpoint. *)
Lemma C9_rate_limit_never_matches_witness :
  (forall r, In r rateLimit -> pathMatcher r sendChangeEmailOTP_path = false) /\
  filter (fun r => pathMatcher r sendChangeEmailOTP_path) rateLimit = [].
Proof. apply C9_rate_limit_never_matches. left. reflexivity. Defined.

(** C10 (as amended): a caller asking to change to the address it already
    has gets no record and no notification (the world is returned
    unchanged); the error is EMAIL_ALREADY_EXISTS, since the directory lookup
    finds the caller's own user, unless the configured length is 0, where
    [createOtp] has already thrown the length error. *)
Theorem C10_own_email_rejected p s draw tz now w u :
  In u (users w) -> user_id u = session_user_id s ->
  sendChangeEmailOTP memAdapter p (Some s) (user_email u) draw tz now w
  = Err (if Nat.eqb (cfg_length (options p)) 0 then generateRandomString_error
         else BAD_REQUEST EMAIL_ALREADY_EXISTS) w.
Proof.
  intros Hin _. exact (send_mem_existing p s (user_email u) draw tz now w u Hin eq_refl).
Qed.

(** C10 fails as stated: with [length: 0] the caller's own address is
    answered with the length error, not EMAIL_ALREADY_EXISTS. *)
Lemma C10_length_zero_throws_first :
  sendChangeEmailOTP memAdapter (memParams zero_length_options) (Some demo_session)
    (user_email demo_user) "042613" utc_zone 0 demo_world
  = Err (Rejected "Length must be a positive integer.") demo_world.
Proof. vm_compute. reflexivity. Qed.

(** Witness for C10: the caller [demo_user] asks for its own address. *)
Lemma C10_own_email_rejected_witness :
  sendChangeEmailOTP memAdapter (memParams noOptions) (Some demo_session) (user_email demo_user)
    "042613" utc_zone 0 demo_world = Err (BAD_REQUEST EMAIL_ALREADY_EXISTS) demo_world.
Proof.
  exact (C10_own_email_rejected (memParams noOptions) demo_session "042613" utc_zone 0
           demo_world demo_user (or_introl eq_refl) eq_refl).
Defined.

(** * Further properties of the handlers *)

(** The record a successful send leaves for the address. *)
Lemma send_mem_record o s e draw otp tz now w :
  find (fun u => String.eqb (user_email u) e) (users w) = None ->
  generateOtp (cfg_length o) draw = Some otp ->
  find_ident (identifier_of e)
    (verifications (state_of (sendChangeEmailOTP memAdapter (memParams o) (Some s) e draw tz now w)))
  = Some {| v_id := next_id w; v_identifier := identifier_of e;
            v_value := encodeValue otp 0;
            v_expiresAt := getExpirationDate tz now (cfg_expirationMinutes o) |}.
Proof.
  intros Hnone Hg. rewrite (send_mem_shape o s e draw otp tz now w Hnone Hg).
  cbn [state_of verifications].
  apply find_ident_app_last; [|reflexivity].
  destruct (find_ident (identifier_of e) (verifications w)) eqn:E;
    [apply find_ident_filter_ident | exact E].
Qed.

(** X1: decoding a value [`${code}:${attempts}`] (split on ":", then
    [parseInt]) gives back the code and the counter, and the increment path
    writes the same code with the counter plus one. *)
Theorem X1_decode_encodeValue c k :
  no_colon c = true -> (0 <= k)%Z ->
  hd EmptyString (split_colon (encodeValue c k)) = c /\
  truthy (nth_error (split_colon (encodeValue c k)) 1) = true /\
  parseInt10_opt (nth_error (split_colon (encodeValue c k)) 1) = Num k /\
  String.append (hd EmptyString (split_colon (encodeValue c k)))
    (String ":" (to_string (add (parseInt10_opt (nth_error (split_colon (encodeValue c k)) 1))
                                (Num 1))))
  = encodeValue c (k + 1).
Proof.
  intros Hc Hk. rewrite split_encodeValue by assumption. cbn [hd nth_error].
  unfold parseInt10_opt. rewrite parseInt10_to_string, truthy_to_string by exact Hk.
  repeat split; reflexivity.
Qed.

Lemma X1_decode_encodeValue_witness :
  hd EmptyString (split_colon (encodeValue "042613" 12)) = "042613"%string /\
  truthy (nth_error (split_colon (encodeValue "042613" 12)) 1) = true /\
  parseInt10_opt (nth_error (split_colon (encodeValue "042613" 12)) 1) = Num 12 /\
  String.append (hd EmptyString (split_colon (encodeValue "042613" 12)))
    (String ":" (to_string (add (parseInt10_opt (nth_error (split_colon (encodeValue "042613" 12)) 1))
                                (Num 1))))
  = encodeValue "042613" (12 + 1).
Proof. apply X1_decode_encodeValue; [reflexivity | lia]. Defined.

(** X2: whatever the store held for the address before (an expired record,
    or one whose counter is exhausted), after a successful send the new code
    verifies at every instant up to and including the expiry instant
    [getExpirationDate] computed at send time (local time plus
    expirationMinutes minutes, read back as UTC), and any code is answered
    OTP_EXPIRED after that instant. *)
Theorem X2_fresh_code_valid_until_expiry o s e draw otp tz now now' w :
  find (fun u => String.eqb (user_email u) e) (users w) = None ->
  generateOtp (cfg_length o) draw = Some otp ->
  all_digits draw = true -> (0 < cfg_maxAttempts o)%Z ->
  ((now' <= getExpirationDate tz now (cfg_expirationMinutes o))%Z ->
   outcome (verifyChangeEmailOTP memAdapter (memParams o) (Some s) e otp now'
              (state_of (sendChangeEmailOTP memAdapter (memParams o) (Some s) e draw tz now w)))
   = None) /\
  ((getExpirationDate tz now (cfg_expirationMinutes o) < now')%Z -> forall otp',
   outcome (verifyChangeEmailOTP memAdapter (memParams o) (Some s) e otp' now'
              (state_of (sendChangeEmailOTP memAdapter (memParams o) (Some s) e draw tz now w)))
   = Some (BAD_REQUEST OTP_EXPIRED)).
Proof.
  intros Hnone Hg Hd Hm. pose proof (send_mem_record o s e draw otp tz now w Hnone Hg) as Hf.
  split.
  - intros Hexp. rewrite (verify_encoded_match (memParams o) s e now' _ _ _ 0 Hf);
      cbn [options memParams v_expiresAt v_value]; auto.
    + apply all_digits_no_colon. exact (generateOtp_digits _ _ _ Hg Hd).
    + lia.
  - intros Hexp otp'. rewrite (verify_expired (memParams o) s e otp' now' _ _ Hf); [reflexivity|].
    exact Hexp.
Qed.

(** Witness for X2 across a daylight-saving fall-back: sent at instant 0
    with the default 5 minutes, the code still verifies 65 minutes later. *)
Lemma X2_fresh_code_valid_until_expiry_witness :
  outcome (verifyChangeEmailOTP memAdapter (memParams noOptions) (Some demo_session) demo_email
             "042613" 3900000
             (state_of (sendChangeEmailOTP memAdapter (memParams noOptions) (Some demo_session)
                          demo_email "042613" fallback_zone 0 demo_world))) = None.
Proof.
  apply (proj1 (X2_fresh_code_valid_until_expiry noOptions demo_session demo_email "042613"
           "042613" fallback_zone 0 3900000 demo_world
           ltac:(vm_compute; reflexivity) ltac:(vm_compute; reflexivity)
           ltac:(vm_compute; reflexivity) ltac:(vm_compute; reflexivity))).
  vm_compute. discriminate.
Defined.

(** X3: a successful send with the recording notifier emails exactly one
    message, to the address, carrying the very code stored in the record;
    the record starts at counter 0 and carries the expiry computed at send
    time; the user directory is not touched. *)
Theorem X3_notified_code_is_stored_code o s e draw otp tz now w :
  find (fun u => String.eqb (user_email u) e) (users w) = None ->
  generateOtp (cfg_length o) draw = Some otp ->
  exists w',
    sendChangeEmailOTP memAdapter (memParams o) (Some s) e draw tz now w = Ok true w' /\
    outbox w' = outbox w ++ [(e, otp)] /\
    option_map v_value (find_ident (identifier_of e) (verifications w'))
      = Some (encodeValue otp 0) /\
    option_map v_expiresAt (find_ident (identifier_of e) (verifications w'))
      = Some (getExpirationDate tz now (cfg_expirationMinutes o)) /\
    users w' = users w.
Proof.
  intros Hnone Hg. pose proof (send_mem_record o s e draw otp tz now w Hnone Hg) as Hf.
  rewrite (send_mem_shape o s e draw otp tz now w Hnone Hg) in Hf |- *.
  eexists. split; [reflexivity|]. cbn [outbox users state_of] in *.
  rewrite Hf. repeat split; reflexivity.
Qed.

Lemma X3_notified_code_is_stored_code_witness :
  exists w',
    sendChangeEmailOTP memAdapter (memParams noOptions) (Some demo_session) demo_email "042613"
      utc_zone 0 demo_world = Ok true w' /\
    outbox w' = outbox demo_world ++ [(demo_email, "042613"%string)] /\
    option_map v_value (find_ident (identifier_of demo_email) (verifications w'))
      = Some (encodeValue "042613" 0) /\
    option_map v_expiresAt (find_ident (identifier_of demo_email) (verifications w'))
      = Some (getExpirationDate utc_zone 0 (cfg_expirationMinutes noOptions)) /\
    users w' = users demo_world.
Proof.
  apply X3_notified_code_is_stored_code; vm_compute; reflexivity.
Defined.

(** X4: a wrong code does not spoil the record: while attempts remain
    (counter k with k + 1 < maxAttempts), a wrong code followed by the
    stored code gives INVALID_OTP and then success. *)
Theorem X4_wrong_then_right o s e c wrong k now w v :
  find_ident (identifier_of e) (verifications w) = Some v ->
  (now <= v_expiresAt v)%Z -> v_value v = encodeValue c k -> no_colon c = true ->
  c <> wrong -> (0 <= k)%Z -> (k + 1 < cfg_maxAttempts o)%Z ->
  fst (verify_seq o (Some s) e now [wrong; c] w) = [Some (BAD_REQUEST INVALID_OTP); None].
Proof.
  intros Hf Hexp Hv Hc Hne Hk Hm. cbn [verify_seq].
  rewrite (verify_encoded_mismatch (memParams o) s e wrong now w v c k Hf Hexp Hv Hc)
    by (cbn [options memParams]; lia || exact Hne).
  cbn [state_of outcome].
  rewrite (verify_encoded_match (memParams o) s e now _ (with_value v (encodeValue c (k + 1))) c (k + 1));
    cbn [options memParams v_expiresAt v_value with_value]; auto; try lia.
  apply find_ident_replace. exact Hf.
Qed.

Lemma X4_wrong_then_right_witness :
  fst (verify_seq noOptions (Some demo_session) demo_email 10 ["111111"%string; "042613"%string]
         demo_pending) = [Some (BAD_REQUEST INVALID_OTP); None].
Proof.
  apply (X4_wrong_then_right noOptions demo_session demo_email "042613" "111111" 0 10 demo_pending
           {| v_id := 0; v_identifier := identifier_of demo_email;
              v_value := "042613:0"; v_expiresAt := 300000 |});
    vm_compute; reflexivity || discriminate.
Defined.

Ltac unfold_verify_mem :=
  unfold verifyChangeEmailOTP, bind, throw, ret;
  cbn [findVerificationValue deleteVerificationValue updateVerificationValue updateUser memAdapter];
  unfold mem_findVerificationValue, mem_deleteVerificationValue, mem_updateVerificationValue,
    mem_updateUser.

(** The records of a send: what was kept, then the new record. *)
Lemma send_mem_split o s e draw otp tz now w :
  find (fun u => String.eqb (user_email u) e) (users w) = None ->
  generateOtp (cfg_length o) draw = Some otp ->
  exists pre,
    find_ident (identifier_of e) pre = None /\
    verifications (state_of (sendChangeEmailOTP memAdapter (memParams o) (Some s) e draw tz now w))
    = pre ++ [{| v_id := next_id w; v_identifier := identifier_of e;
                 v_value := encodeValue otp 0;
                 v_expiresAt := getExpirationDate tz now (cfg_expirationMinutes o) |}] /\
    Forall (fun x => In x (verifications w)) pre.
Proof.
  intros Hnone Hg. rewrite (send_mem_shape o s e draw otp tz now w Hnone Hg).
  cbn [state_of verifications].
  destruct (find_ident (identifier_of e) (verifications w)) eqn:E; eexists; split.
  - apply find_ident_filter_ident.
  - split; [reflexivity|]. apply Forall_forall. intros x Hx. apply filter_In in Hx. tauto.
  - exact E.
  - split; [reflexivity|]. apply Forall_forall. tauto.
Qed.

(** A record found for [j] is the only one with that identifier. *)
Lemma found_id_differs j vs v x :
  NoDup (map v_id vs) -> find_ident j vs = Some v -> In x vs -> v_identifier x <> j ->
  v_id x <> v_id v.
Proof.
  intros Hnd Hf Hx Hne Hid. destruct (find_ident_some _ _ _ Hf) as [Hv Hin].
  assert (x = v) by exact (NoDup_map_same v_id vs x v Hnd Hx Hin Hid). congruence.
Qed.

(** A counter that decodes to [NaN]: wrong codes, then the stored one. *)
Lemma nan_run o s e c now wrongs : forall w v,
  find_ident (identifier_of e) (verifications w) = Some v ->
  (now <= v_expiresAt v)%Z -> v_value v = String.append c (String ":" "NaN") ->
  no_colon c = true -> Forall (fun x => x <> c) wrongs ->
  fst (verify_seq o (Some s) e now (wrongs ++ [c]) w)
  = repeat (Some (BAD_REQUEST INVALID_OTP)) (length wrongs) ++ [None].
Proof.
  induction wrongs as [|x rest IH]; intros w v Hf Hexp Hv Hc Hw; cbn [app verify_seq length repeat].
  - assert (Hs : split_colon (v_value v) = [c; "NaN"%string]).
    { rewrite Hv, split_colon_encode by exact Hc. reflexivity. }
    rewrite (verify_match (memParams o) s e c now w v Hf Hexp); [reflexivity | |].
    + rewrite Hs. reflexivity.
    + rewrite Hs. reflexivity.
  - apply Forall_cons_iff in Hw as [Hx Hw].
    rewrite (verify_nan_counter (memParams o) s e x now w v c Hf Hexp Hv Hc (not_eq_sym Hx)).
    cbn [state_of outcome].
    set (w1 := set_verifications w _ _).
    destruct (verify_seq o (Some s) e now (rest ++ [c]) w1) as [r2 w2] eqn:E.
    cbn [fst]. f_equal.
    pose proof (IH w1 (with_value v (v_value v)) (find_ident_replace _ _ _ (v_value v) Hf)
                  Hexp Hv Hc Hw) as H. rewrite E in H. exact H.
Qed.

(** X5: with maxAttempts at most 0 the sent code can never be used: any
    verification of the record, the right code included, is answered
    TOO_MANY_ATTEMPTS and deletes the record. *)
Theorem X5_no_attempts_allowed o s e draw code tz now now' otp w :
  find (fun u => String.eqb (user_email u) e) (users w) = None ->
  generateOtp (cfg_length o) draw = Some code ->
  all_digits draw = true -> (cfg_maxAttempts o <= 0)%Z ->
  (now' <= getExpirationDate tz now (cfg_expirationMinutes o))%Z ->
  outcome (verifyChangeEmailOTP memAdapter (memParams o) (Some s) e otp now'
             (state_of (sendChangeEmailOTP memAdapter (memParams o) (Some s) e draw tz now w)))
  = Some (BAD_REQUEST TOO_MANY_ATTEMPTS) /\
  find_ident (identifier_of e)
    (verifications (state_of (verifyChangeEmailOTP memAdapter (memParams o) (Some s) e otp now'
       (state_of (sendChangeEmailOTP memAdapter (memParams o) (Some s) e draw tz now w))))) = None.
Proof.
  intros Hnone Hg Hd Hm Hexp.
  pose proof (send_mem_record o s e draw code tz now w Hnone Hg) as Hf.
  destruct (send_mem_split o s e draw code tz now w Hnone Hg) as (pre & Hpre & Hvs & _).
  set (w1 := state_of (sendChangeEmailOTP memAdapter (memParams o) (Some s) e draw tz now w)) in *.
  rewrite (verify_encoded_exhausted (memParams o) s e otp now' w1 _ code 0 Hf Hexp eq_refl);
    cbn [options memParams]; try lia.
  - split; [reflexivity|]. cbn [state_of set_verifications verifications v_id].
    apply find_ident_none_not_in. intros Hin. apply in_map_iff in Hin as (x & Hx & Hin).
    apply filter_In in Hin as [Hin Hother]. rewrite Hvs in Hin. apply in_app_or in Hin as [Hin|[<-|[]]].
    + apply find_ident_none_not_in in Hpre. apply Hpre. rewrite <- Hx. apply in_map. exact Hin.
    + unfold other_id in Hother. cbn [v_id] in Hother. rewrite Nat.eqb_refl in Hother. discriminate.
  - apply all_digits_no_colon. exact (generateOtp_digits _ _ _ Hg Hd).
Qed.

Lemma X5_no_attempts_allowed_witness :
  outcome (verifyChangeEmailOTP memAdapter (memParams no_attempt_options) (Some demo_session)
             demo_email "042613" 1000
             (state_of (sendChangeEmailOTP memAdapter (memParams no_attempt_options)
                          (Some demo_session) demo_email "042613" utc_zone 0 demo_world)))
  = Some (BAD_REQUEST TOO_MANY_ATTEMPTS) /\
  find_ident (identifier_of demo_email)
    (verifications (state_of (verifyChangeEmailOTP memAdapter (memParams no_attempt_options)
       (Some demo_session) demo_email "042613" 1000
       (state_of (sendChangeEmailOTP memAdapter (memParams no_attempt_options) (Some demo_session)
                    demo_email "042613" utc_zone 0 demo_world))))) = None.
Proof.
  apply (X5_no_attempts_allowed no_attempt_options demo_session demo_email "042613" "042613"
           utc_zone 0 1000); vm_compute; reflexivity || discriminate.
Defined.

(** X6: verify never sends mail and never creates a record (the outbox and
    the id counter are unchanged), and a verify that fails leaves the user
    directory as it was. *)
Theorem X6_verify_keeps_directory_and_outbox p sess e otp now w :
  match verifyChangeEmailOTP memAdapter p sess e otp now w with
  | Err _ w' => users w' = users w /\ outbox w' = outbox w /\ next_id w' = next_id w
  | Ok _ w' => outbox w' = outbox w /\ next_id w' = next_id w
  end.
Proof.
  destruct sess as [s|]; [|repeat split].
  unfold_verify_mem.
  destruct (find_ident (identifier_of e) (verifications w)) as [v|]; [|repeat split].
  destruct (v_expiresAt v <? now)%Z; [repeat split|]. cbv zeta.
  destruct (truthy _ && ge _ _); [repeat split|].
  destruct (negb _); repeat split.
Qed.

(** X7: a verify call writes the verification table at most once, and
    only the record found for the address: nothing, one delete of it, or
    one update of its value. *)
Theorem X7_verify_single_store_write p sess e otp now w :
  calls (state_of (verifyChangeEmailOTP memAdapter p sess e otp now w)) = calls w \/
  exists v, find_ident (identifier_of e) (verifications w) = Some v /\
    (calls (state_of (verifyChangeEmailOTP memAdapter p sess e otp now w))
       = calls w ++ [CallDelete (v_id v)] \/
     calls (state_of (verifyChangeEmailOTP memAdapter p sess e otp now w))
       = calls w ++ [CallUpdate (v_id v)]).
Proof.
  destruct sess as [s|]; [|left; reflexivity].
  unfold_verify_mem.
  destruct (find_ident (identifier_of e) (verifications w)) as [v|] eqn:Hf; [|left; reflexivity].
  destruct (v_expiresAt v <? now)%Z; [left; reflexivity|]. cbv zeta.
  right. exists v. split; [reflexivity|].
  destruct (truthy _ && ge _ _); [left; reflexivity|].
  destruct (negb _); [right|left]; reflexivity.
Qed.

(** X8: when record ids are distinct, neither handler changes the record
    found for any identifier other than the one of the requested address. *)
Theorem X8_other_identifiers_untouched p o sess e otp draw tz now i w :
  NoDup (map v_id (verifications w)) -> i <> identifier_of e ->
  find_ident i (verifications (state_of (verifyChangeEmailOTP memAdapter p sess e otp now w)))
  = find_ident i (verifications w) /\
  find_ident i (verifications (state_of (sendChangeEmailOTP memAdapter (memParams o) sess e draw
                                            tz now w)))
  = find_ident i (verifications w).
Proof.
  intros Hnd Hi. split.
  - destruct sess as [s|]; [|reflexivity].
    unfold_verify_mem.
    destruct (find_ident (identifier_of e) (verifications w)) as [v|] eqn:Hf; [|reflexivity].
    destruct (v_expiresAt v <? now)%Z; [reflexivity|]. cbv zeta.
    assert (Hq : forall x, In x (verifications w) -> v_identifier x = i -> other_id (v_id v) x = true).
    { intros x Hx Hxi. unfold other_id. apply negb_true_iff, Nat.eqb_neq.
      apply (found_id_differs _ _ _ _ Hnd Hf Hx). congruence. }
    destruct (truthy _ && ge _ _); cbn [state_of set_verifications verifications];
      [apply find_ident_filter_frame; exact Hq|].
    destruct (negb _); cbn [state_of set_verifications verifications];
      [|apply find_ident_filter_frame; exact Hq].
    apply find_ident_map_frame.
    + intros x _. unfold replace_value. destruct (Nat.eqb (v_id x) (v_id v)); reflexivity.
    + intros x Hx Hxi. unfold replace_value.
      rewrite (proj2 (Nat.eqb_neq _ _) (found_id_differs _ _ _ _ Hnd Hf Hx ltac:(congruence))).
      reflexivity.
  - destruct sess as [s|]; [|reflexivity].
    destruct (generateOtp (cfg_length o) draw) as [code|] eqn:Hg.
    2: { rewrite send_zero_length by (apply (generateOtp_none_iff _ draw); exact Hg).
         reflexivity. }
    destruct (find (fun u => String.eqb (user_email u) e) (users w)) as [u|] eqn:Eu.
    + apply find_some in Eu as [Hin He]. apply String.eqb_eq in He.
      rewrite (send_mem_existing _ s e draw tz now w u Hin He). reflexivity.
    + rewrite (send_mem_shape o s e draw code tz now w Eu Hg). cbn [state_of verifications].
      rewrite find_ident_app.
      assert (Hpre : find_ident i (match find_ident (identifier_of e) (verifications w) with
                                  | None => verifications w
                                  | Some _ => filter (fun v => negb (String.eqb (v_identifier v)
                                                                      (identifier_of e)))
                                                (verifications w)
                                  end) = find_ident i (verifications w)).
      { destruct (find_ident (identifier_of e) (verifications w)); [|reflexivity].
        apply find_ident_filter_frame. intros x _ Hx. rewrite Hx.
        apply negb_true_iff, String.eqb_neq. exact Hi. }
      rewrite Hpre. destruct (find_ident i (verifications w)); [reflexivity|].
      unfold find_ident. cbn [find v_identifier].
      rewrite (proj2 (String.eqb_neq _ _) (not_eq_sym Hi)). reflexivity.
Qed.

(** Witness for X8: the record pending for [second_email] is untouched by
    a verify and by a new send for [demo_email]. *)
Lemma X8_other_identifiers_untouched_witness :
  find_ident (identifier_of second_email)
    (verifications (state_of (verifyChangeEmailOTP memAdapter (memParams noOptions)
                                (Some demo_session) demo_email "042613" 10 two_pending)))
  = find_ident (identifier_of second_email) (verifications two_pending) /\
  find_ident (identifier_of second_email)
    (verifications (state_of (sendChangeEmailOTP memAdapter (memParams noOptions)
                                (Some demo_session) demo_email "111111" utc_zone 10 two_pending)))
  = find_ident (identifier_of second_email) (verifications two_pending).
Proof.
  apply X8_other_identifiers_untouched.
  - vm_compute. constructor; [intros [H|[]]; discriminate H | constructor; [intros [] | constructor]].
  - vm_compute. discriminate.
Defined.

(** X10: a live record whose value carries no counter (no ":") has no
    attempt limit: any number of wrong codes are each answered INVALID_OTP,
    and the stored code still verifies afterwards. *)
Theorem X10_counterless_record_unlimited o s e c wrongs now w v :
  find_ident (identifier_of e) (verifications w) = Some v ->
  (now <= v_expiresAt v)%Z -> v_value v = c -> no_colon c = true ->
  Forall (fun x => x <> c) wrongs ->
  fst (verify_seq o (Some s) e now (wrongs ++ [c]) w)
  = repeat (Some (BAD_REQUEST INVALID_OTP)) (length wrongs) ++ [None].
Proof.
  intros Hf Hexp Hv Hc Hw.
  assert (Hs : split_colon (v_value v) = [c]) by (rewrite Hv; apply split_colon_no_colon; exact Hc).
  destruct wrongs as [|x rest]; cbn [app verify_seq length repeat].
  - rewrite (verify_match (memParams o) s e c now w v Hf Hexp); [reflexivity | |].
    + rewrite Hs. reflexivity.
    + rewrite Hs. reflexivity.
  - apply Forall_cons_iff in Hw as [Hx Hw].
    rewrite (verify_mismatch (memParams o) s e x now w v Hf Hexp); [| rewrite Hs; reflexivity |
                                                                   rewrite Hs; exact (not_eq_sym Hx)].
    rewrite Hs. cbn [state_of outcome hd nth_error].
    set (w1 := set_verifications w _ _).
    destruct (verify_seq o (Some s) e now (rest ++ [c]) w1) as [r2 w2] eqn:E.
    cbn [fst]. f_equal.
    assert (Hf1 : find_ident (identifier_of e) (verifications w1)
                  = Some (with_value v (String.append c (String ":" "NaN")))).
    { apply find_ident_replace. exact Hf. }
    pose proof (nan_run o s e c now rest w1 _ Hf1 Hexp eq_refl Hc Hw) as H.
    rewrite E in H. exact H.
Qed.

Lemma X10_counterless_record_unlimited_witness :
  fst (verify_seq noOptions (Some demo_session) demo_email 10
         ["1"%string; "2"%string; "3"%string; "4"%string; "5"%string; "042613"%string]
         (world_with_value "042613"))
  = repeat (Some (BAD_REQUEST INVALID_OTP)) 5 ++ [None].
Proof.
  apply (X10_counterless_record_unlimited noOptions demo_session demo_email "042613"
           ["1"%string; "2"%string; "3"%string; "4"%string; "5"%string] 10
           (world_with_value "042613")
           {| v_id := 7; v_identifier := identifier_of demo_email;
              v_value := "042613"; v_expiresAt := 300000 |});
    [vm_compute; reflexivity | vm_compute; discriminate | reflexivity | reflexivity |
     repeat constructor; discriminate].
Defined.
